(** * mrename: index extraction, name formatting and the transfer engine

    A shallow embedding of [core.py] (with the pieces of [pathlib],
    [shutil] and the [int]/[str] built-ins it calls) and the properties
    of the index extractor, the name formatter and the rename/copy
    engine.

    Modelling conventions.
    - A Python [str] is a [list ascii]; a character is a Unicode code
      point below 256 (the Latin-1 range), so [str.isdigit] holds for
      the ten ASCII digits and for the superscripts U+00B2, U+00B3 and
      U+00B9, which [int()] refuses.
    - A Python [int] is a [Z].  [int()] is exact on digit runs of any
      length (file names are far shorter than the interpreter's limit on
      decimal conversions).
    - [sys.exit] and uncaught exceptions are results of type [outcome];
      functions touching the file system or standard output are state
      transformers over [world].
    - Paths are POSIX pure paths, compared component by component; the
      file system is an association list in directory-listing order. *)

From Stdlib Require Import Ascii String.
From Stdlib Require Import List ZArith Lia Bool Arith.
Import ListNotations.

(* ================================================================= *)
(** ** Characters and strings *)

Definition str := list ascii.

Definition lit (s : string) : str := list_ascii_of_string s.
Arguments lit s%_string.

Definition code (c : ascii) : Z := Z.of_N (N_of_ascii c).

Definition chr (n : N) : ascii := ascii_of_N n.

(** [c.isdigit()] on the Latin-1 range. *)
Definition isdigit (c : ascii) : bool :=
  ((48 <=? code c) && (code c <=? 57) ||
   (code c =? 178) || (code c =? 179) || (code c =? 185))%Z.

(** The characters [int()] reads as decimal digits. *)
Definition isdecimal (c : ascii) : bool :=
  ((48 <=? code c) && (code c <=? 57))%Z.

Definition digit_value (c : ascii) : Z := (code c - 48)%Z.

(** The characters [int()] strips around a literal: the C-locale blanks,
    and NEL and NBSP, which are turned into a blank beforehand. *)
Definition int_space (c : ascii) : bool :=
  ((9 <=? code c) && (code c <=? 13) ||
   (code c =? 32) || (code c =? 133) || (code c =? 160))%Z.

Definition str_eq_dec : forall a b : str, {a = b} + {a <> b} :=
  list_eq_dec ascii_dec.

(** [s.startswith(p)] *)
Fixpoint startswith (s p : str) {struct p} : bool :=
  match p, s with
  | [], _ => true
  | _ :: _, [] => false
  | a :: p', b :: s' => Ascii.eqb a b && startswith s' p'
  end.

(** [s.index(sub)]: the lowest offset at which [sub] occurs, [None] for
    the [ValueError] raised when it does not occur. *)
Fixpoint str_index (s sub : str) : option nat :=
  if startswith s sub then Some 0%nat
  else match s with
       | [] => None
       | _ :: s' => option_map S (str_index s' sub)
       end.

(** [s.rfind(c)]: the highest offset of [c], or -1. *)
Fixpoint rfind (s : str) (c : ascii) : Z :=
  match s with
  | [] => (-1)%Z
  | x :: s' =>
      let j := rfind s' c in
      if (0 <=? j)%Z then (j + 1)%Z
      else if Ascii.eqb x c then 0%Z else (-1)%Z
  end.

(* ================================================================= *)
(** ** The [int] built-in on strings, and printing integers *)

Fixpoint lstrip (s : str) : str :=
  match s with
  | c :: r => if int_space c then lstrip r else s
  | [] => []
  end.

(** The digit part of a literal: decimal digits, with single underscores
    allowed between two digits.  [prev_us] tells that the character just
    read was an underscore.  Returns the value and the unread rest. *)
Fixpoint scan_digits (prev_us : bool) (acc : Z) (s : str) : option (Z * str) :=
  match s with
  | c :: r =>
      if isdecimal c then scan_digits false (10 * acc + digit_value c)%Z r
      else if Ascii.eqb c "_"%char then
             if prev_us then None else scan_digits true acc r
      else if prev_us then None else Some (acc, s)
  | [] => if prev_us then None else Some (acc, [])
  end.

(** [int(s)] in base 10; [None] stands for [ValueError]. *)
Definition py_int (s : str) : option Z :=
  let s1 := lstrip s in
  let '(sign, s2) :=
    match s1 with
    | c :: r => if Ascii.eqb c "+"%char then (1%Z, r)
                else if Ascii.eqb c "-"%char then ((-1)%Z, r)
                else (1%Z, s1)
    | [] => (1%Z, s1)
    end in
  match s2 with
  | c :: _ =>
      if isdecimal c then
        match scan_digits false 0 s2 with
        | Some (v, rest) =>
            match lstrip rest with
            | [] => Some (sign * v)%Z
            | _ :: _ => None
            end
        | None => None
        end
      else None
  | [] => None
  end.

Definition digit_char (d : Z) : ascii := chr (Z.to_N (48 + d)).

Fixpoint digits_fuel (fuel : nat) (n : Z) (acc : str) : str :=
  match fuel with
  | O => acc
  | S f =>
      let acc' := digit_char (n mod 10) :: acc in
      if (n <? 10)%Z then acc' else digits_fuel f (n / 10) acc'
  end.

(** The decimal digits of a non-negative integer. *)
Definition digits (n : Z) : str :=
  digits_fuel (S (Z.to_nat (Z.log2 n))) n [].

(** [str(n)] *)
Definition py_str (n : Z) : str :=
  if (n <? 0)%Z then "-"%char :: digits (- n) else digits n.

(** ["{:02d}".format(n)]: zero padding to a width of two, the sign
    counting for one column. *)
Definition format_02d (n : Z) : str :=
  if (n <? 0)%Z then "-"%char :: digits (- n)
  else if (n <? 10)%Z then "0"%char :: digits n
  else digits n.

(* ================================================================= *)
(** ** Results *)

Inductive exn :=
| ValueError
| FileNotFoundError
| NotADirectoryError
| IsADirectoryError
| SameFileError.

(** What a call comes to: a value, [sys.exit(code)] after [msg] went to
    standard error, or an exception nobody catches. *)
Inductive outcome (A : Type) :=
| Ok (a : A)
| Exit (msg : str) (status : Z)
| Raise (e : exn).
Arguments Ok {A} a.
Arguments Exit {A} msg status.
Arguments Raise {A} e.

Definition obind {A B} (o : outcome A) (k : A -> outcome B) : outcome B :=
  match o with
  | Ok a => k a
  | Exit m c => Exit m c
  | Raise e => Raise e
  end.

Definition error_exit {A} (msg : str) : outcome A := Exit msg 1.

(* ================================================================= *)
(** ** Index extractor *)

Definition placeholder : str := lit "{}".

Definition invalid_format_msg : str := lit "Invalid format. Cannot find {}.".

Fixpoint skip_non_digits (filename : str) : str :=
  match filename with
  | c :: r => if isdigit c then filename else skip_non_digits r
  | [] => []
  end.

Fixpoint digit_run (filename : str) : nat :=
  match filename with
  | c :: r => if isdigit c then S (digit_run r) else O
  | [] => O
  end.

(** The part of [find_index] after the two branches on the format. *)
Definition parse_run (filename : str) : Z :=
  if (length filename =? 0)%nat then (-1)%Z
  else
    let i := digit_run filename in
    match py_int (firstn i filename) with
    | Some n => n
    | None => (-1)%Z
    end.

Definition find_index (filename : str) (format : option str) : outcome Z :=
  match format with
  | Some ((_ :: _) as fmt) =>
      match str_index fmt placeholder with
      | Some k => Ok (parse_run (skipn k filename))
      | None => error_exit invalid_format_msg
      end
  | _ => Ok (parse_run (skip_non_digits filename))
  end.

(* ================================================================= *)
(** ** Paths *)

(** A pure POSIX path: [anchor] is [""], ["/"] or ["//"]. *)
Record Path := mkPath { anchor : str; parts : list str }.

Definition Path_eq_dec : forall p q : Path, {p = q} + {p <> q}.
Proof.
  decide equality; [apply (list_eq_dec str_eq_dec) | apply str_eq_dec].
Defined.

(** [p.name]: the last component, empty for the current directory and
    the root. *)
Definition name (p : Path) : str := last (parts p) [].

(** [p.suffix] and [p.stem], as pathlib computes them from
    [i = name.rfind('.')] and the test [0 < i < len(name) - 1]: a leading
    dot and a trailing dot start no extension. *)
Definition suffix (p : Path) : str :=
  let n := name p in
  let i := rfind n "."%char in
  if ((0 <? i) && (i <? Z.of_nat (length n) - 1))%Z
  then skipn (Z.to_nat i) n else [].

Definition stem (p : Path) : str :=
  let n := name p in
  let i := rfind n "."%char in
  if ((0 <? i) && (i <? Z.of_nat (length n) - 1))%Z
  then firstn (Z.to_nat i) n else n.

(* ================================================================= *)
(** ** Name formatter *)

Definition is_formatted (filepath : Path) (prefix : str) : bool :=
  let name := stem filepath in
  if startswith name prefix then
    match py_int (skipn (length prefix) name) with
    | Some _ => true
    | None => false
    end
  else false.

Definition formatted_filename (path : Path) (prefix : str)
    (format : option str) : outcome str :=
  obind (find_index (name path) format) (fun index =>
    if negb (index =? -1)%Z
    then Ok (prefix ++ format_02d index ++ suffix path)
    else Ok []).

(* ================================================================= *)
(** ** The file system and standard output *)

Definition bytes := list ascii.

Inductive node :=
| File (data : bytes)
| Dir.

(** Entries in directory-listing order; the first entry of a path is the
    one that counts. *)
Definition FS := list (Path * node).

Record world := mkWorld { files : FS; stdout : str }.

Definition set_files (w : world) (fs : FS) : world :=
  mkWorld fs (stdout w).

Fixpoint lookup (fs : FS) (p : Path) : option node :=
  match fs with
  | [] => None
  | (q, n) :: r => if Path_eq_dec q p then Some n else lookup r p
  end.

(** [p.exists()] where [stat] can examine the path: the current
    directory and the root always are there.  The errors of [stat] other
    than absence, which [exists()] lets through (a name beyond the length
    the file system allows, a directory that may not be searched), are
    outside this model, as are those of the other file-system calls. *)
Definition exists_ (fs : FS) (p : Path) : bool :=
  match parts p with
  | [] => true
  | _ :: _ => match lookup fs p with Some _ => true | None => false end
  end.

(** [p.is_dir()] *)
Definition is_dir (fs : FS) (p : Path) : bool :=
  match parts p with
  | [] => true
  | _ :: _ => match lookup fs p with Some Dir => true | _ => false end
  end.

Definition parent (p : Path) : Path :=
  mkPath (anchor p) (removelast (parts p)).

Definition is_child (dir p : Path) : bool :=
  match parts p with
  | [] => false
  | _ :: _ => if Path_eq_dec (parent p) dir then true else false
  end.

(** [list(dir.iterdir())] *)
Definition iterdir (fs : FS) (dir : Path) : outcome (list Path) :=
  if is_dir fs dir
  then Ok (map fst (filter (fun e => is_child dir (fst e)) fs))
  else if exists_ fs dir then Raise NotADirectoryError
  else Raise FileNotFoundError.

Definition has_sep (s : str) : bool :=
  existsb (fun c => Ascii.eqb c "/"%char) s.

(** [path.with_name(name)] *)
Definition with_name (path : Path) (new_name : str) : outcome Path :=
  match name path with
  | [] => Raise ValueError
  | _ :: _ =>
      if match new_name with [] => true | _ :: _ => false end
         || has_sep new_name
         || (if str_eq_dec new_name (lit ".") then true else false)
      then Raise ValueError
      else Ok (mkPath (anchor path) (removelast (parts path) ++ [new_name]))
  end.

Fixpoint split_sep (s cur : str) : list str :=
  match s with
  | [] => [rev cur]
  | c :: r =>
      if Ascii.eqb c "/"%char then rev cur :: split_sep r []
      else split_sep r (c :: cur)
  end.

Definition is_component (c : str) : bool :=
  negb (if str_eq_dec c [] then true else false)
  && negb (if str_eq_dec c (lit ".") then true else false).

(** The root of a POSIX path given as a string: two leading slashes are
    kept, one or more than two make ["/"]. *)
Definition splitroot (s : str) : str :=
  match s with
  | a :: b :: c :: _ =>
      if Ascii.eqb a "/"%char then
        if Ascii.eqb b "/"%char && negb (Ascii.eqb c "/"%char)
        then lit "//" else lit "/"
      else []
  | [a; b] =>
      if Ascii.eqb a "/"%char then
        if Ascii.eqb b "/"%char then lit "//" else lit "/"
      else []
  | [a] => if Ascii.eqb a "/"%char then lit "/" else []
  | [] => []
  end.

(** [dest.joinpath(name)] *)
Definition joinpath (dest : Path) (other : str) : Path :=
  let comps := filter is_component (split_sep other []) in
  match splitroot other with
  | [] => mkPath (anchor dest) (parts dest ++ comps)
  | r => mkPath r comps
  end.

(** State transformers that may exit or raise; the world reached is
    kept in every case. *)
Definition M (A : Type) := world -> outcome A * world.

Definition ret {A} (a : A) : M A := fun w => (Ok a, w).

Definition bind {A B} (m : M A) (k : A -> M B) : M B :=
  fun w =>
    match m w with
    | (Ok a, w') => k a w'
    | (Exit msg c, w') => (Exit msg c, w')
    | (Raise e, w') => (Raise e, w')
    end.

Definition lift {A} (o : outcome A) : M A := fun w => (o, w).

Definition gets {A} (f : FS -> A) : M A := fun w => (Ok (f (files w)), w).

Notation "x <- c1 ;; c2" := (bind c1 (fun x => c2))
  (at level 61, c1 at next level, right associativity).
Notation "c1 ;;; c2" := (bind c1 (fun _ => c2))
  (at level 61, right associativity).

(** [print(s, end=e)] *)
Definition print (s e : str) : M unit :=
  fun w => (Ok tt, mkWorld (files w) (stdout w ++ s ++ e)).

Definition newline : str := [chr 10].

Fixpoint remove_key (fs : FS) (p : Path) : FS :=
  match fs with
  | [] => []
  | (q, n) :: r =>
      if Path_eq_dec q p then remove_key r p else (q, n) :: remove_key r p
  end.

Fixpoint strip_parts (pre l : list str) : option (list str) :=
  match pre, l with
  | [], _ => Some l
  | _ :: _, [] => None
  | a :: pre', b :: l' =>
      if str_eq_dec a b then strip_parts pre' l' else None
  end.

(** Where [p] is after [src] was moved to [dst]. *)
Definition rebase (src dst p : Path) : Path :=
  if str_eq_dec (anchor p) (anchor src) then
    match strip_parts (parts src) (parts p) with
    | Some rest => mkPath (anchor dst) (parts dst ++ rest)
    | None => p
    end
  else p.

(** [src.rename(dst)].  It is reached with [dst] absent only; an entry at
    [dst] would be replaced. *)
Definition os_rename (src dst : Path) : M unit :=
  fun w =>
    match lookup (files w) src with
    | None => (Raise FileNotFoundError, w)
    | Some _ =>
        (Ok tt,
         set_files w
           (map (fun e => (rebase src dst (fst e), snd e))
                (remove_key (files w) dst)))
    end.

Fixpoint put (fs : FS) (p : Path) (n : node) : FS :=
  match fs with
  | [] => [(p, n)]
  | (q, m) :: r =>
      if Path_eq_dec q p then (p, n) :: r else (q, m) :: put r p n
  end.

(** [shutil.copy(src, dst)] *)
Definition shutil_copy (src dst : Path) : M unit :=
  fun w =>
    let fs := files w in
    let dst :=
      match parts dst with
      | [] => joinpath dst (name src)
      | _ :: _ =>
          match lookup fs dst with
          | Some Dir => joinpath dst (name src)
          | _ => dst
          end
      end in
    match lookup fs src with
    | None => (Raise FileNotFoundError, w)
    | Some Dir => (Raise IsADirectoryError, w)
    | Some (File data) =>
        if Path_eq_dec src dst then (Raise SameFileError, w)
        else if is_dir fs (parent dst)
        then (Ok tt, set_files w (put fs dst (File data)))
        else (Raise FileNotFoundError, w)
    end.

(* ================================================================= *)
(** ** Directory scanner *)

Definition to_process (dir : Path) : M (list Path) :=
  fun w =>
    let fs := files w in
    (obind (iterdir fs dir) (fun l =>
       Ok (filter (fun f => negb (is_dir fs f || startswith (name f) (lit ".")))
                  l)),
     w).

(* ================================================================= *)
(** ** Transfer engine *)

Definition rename_file (path : Path) (prefix : str) (format : option str)
    : M bool :=
  if is_formatted path prefix then ret false
  else
    new_name <- lift (formatted_filename path prefix format) ;;
    if str_eq_dec new_name [] then ret false
    else
      new_path <- lift (with_name path new_name) ;;
      there <- gets (fun fs => exists_ fs new_path) ;;
      if negb (if Path_eq_dec new_path path then true else false)
         && negb there
      then os_rename path new_path ;;; ret true
      else ret false.

Fixpoint rename_loop (l : list Path) (prefix : str) (format : option str)
    (renamed_count unrenamed_count : Z) : M (Z * Z) :=
  match l with
  | [] => ret (renamed_count, unrenamed_count)
  | filepath :: r =>
      b <- rename_file filepath prefix format ;;
      if b then rename_loop r prefix format (renamed_count + 1) unrenamed_count
      else rename_loop r prefix format renamed_count (unrenamed_count + 1)
  end.

Definition rename_all_files_in_dir (dir : Path) (prefix : str)
    (format : option str) : M (Z * Z * Z) :=
  l <- to_process dir ;;
  c <- rename_loop l prefix format 0 0 ;;
  ret (fst c, snd c, (fst c + snd c)%Z).

(** The end of [copy_file], once the target name is known. *)
Definition copy_to (src dest : Path) (new_name : str) : M bool :=
  let dest_filepath := joinpath dest new_name in
  there <- gets (fun fs => exists_ fs dest_filepath) ;;
  if negb there
  then shutil_copy src dest_filepath ;;; ret true
  else ret false.

Definition copy_file (src dest : Path) (prefix : str) (format : option str)
    : M bool :=
  if negb (is_formatted src prefix) then
    new_name <- lift (formatted_filename src prefix format) ;;
    if str_eq_dec new_name [] then ret false
    else copy_to src dest new_name
  else copy_to src dest (name src).

Fixpoint copy_loop (l : list Path) (dest : Path) (prefix : str)
    (format : option str) (uncopied_count copied_count : Z) : M (Z * Z) :=
  match l with
  | [] => ret (uncopied_count, copied_count)
  | filepath :: r =>
      b <- copy_file filepath dest prefix format ;;
      if b then copy_loop r dest prefix format uncopied_count (copied_count + 1)
      else copy_loop r dest prefix format (uncopied_count + 1) copied_count
  end.

Definition copy_all_files_in_dir (src dest : Path) (prefix : str)
    (format : option str) : M (Z * Z * Z) :=
  l <- to_process src ;;
  c <- copy_loop l dest prefix format 0 0 ;;
  ret (snd c, fst c, (snd c + fst c)%Z).

Definition rename (path : Path) (prefix : str) (format : option str)
    : M unit :=
  d <- gets (fun fs => is_dir fs path) ;;
  if d then
    res <- rename_all_files_in_dir path prefix format ;;
    let '(res0, res1, res2) := res in
    print (py_str res2 ++ lit " files processed.") (lit " ") ;;;
    if (res0 =? 0)%Z then print (lit "No file renamed.") newline
    else if (res0 =? res2)%Z then print (lit "All files renamed.") newline
    else print (py_str res0 ++ lit " renamed. " ++ py_str res1
                ++ lit " unchanged.") newline
  else
    b <- rename_file path prefix format ;;
    if negb b then print (lit "File not renamed.") newline else ret tt.

Definition copy (src dest : Path) (prefix : str) (format : option str)
    : M unit :=
  d <- gets (fun fs => is_dir fs src) ;;
  if d then
    res <- copy_all_files_in_dir src dest prefix format ;;
    let '(res0, res1, res2) := res in
    print (py_str res2 ++ lit " files processed.") (lit " ") ;;;
    if (res0 =? 0)%Z then print (lit "No file copied.") newline
    else if (res0 =? res2)%Z then print (lit "All files copied.") newline
    else print (py_str res0 ++ lit " copied. " ++ py_str res1
                ++ lit " not copied.") newline
  else
    b <- copy_file src dest prefix format ;;
    if negb b then print (lit "File not copied.") newline else ret tt.

(* ================================================================= *)
(** ** What the specification speaks of *)

(** The value of a run of decimal digits, most significant first. *)
Definition decimal_value (ds : str) : Z :=
  fold_left (fun a c => (10 * a + digit_value c)%Z) ds 0%Z.

(** Decimal digits in groups: a digit, then digits each preceded by at
    most one underscore. *)
Inductive digit_groups : str -> Prop :=
| dg_last c : isdecimal c = true -> digit_groups [c]
| dg_next c s : isdecimal c = true -> digit_groups s -> digit_groups (c :: s)
| dg_under c s :
    isdecimal c = true -> digit_groups s -> digit_groups (c :: "_"%char :: s).

Definition is_sign (sg : str) : Prop :=
  sg = [] \/ sg = ["+"%char] \/ sg = ["-"%char].

(** The strings that parse entirely as an integer: blanks, an optional
    sign, grouped digits, blanks. *)
Definition int_literal (s : str) : Prop :=
  exists l sg ds r,
    s = l ++ sg ++ ds ++ r /\
    forallb int_space l = true /\ is_sign sg /\ digit_groups ds /\
    forallb int_space r = true.

(** No hint: [None], or the empty string that is the default. *)
Definition no_hint (format : option str) : bool :=
  match format with
  | Some (_ :: _) => false
  | _ => true
  end.

(** SUPERSCRIPT TWO, a digit for [isdigit] that [int()] refuses. *)
Definition superscript_two : ascii := chr 178.

(** The name ["x²"] followed by [".mp3"]. *)
Definition squared_mp3 : Path :=
  mkPath [] [lit "x" ++ [superscript_two] ++ lit ".mp3"].

(* ================================================================= *)
(** ** Some directories *)

Definition dir_d : Path := mkPath [] [lit "d"].
Definition dir_o : Path := mkPath [] [lit "o"].

Definition in_d (n : str) : Path := mkPath [] [lit "d"; n].
Definition in_o (n : str) : Path := mkPath [] [lit "o"; n].

(** [d] holds two numbered images, a text file without a number, a hidden
    file and a sub-directory; [o] is empty. *)
Definition world_photos : world :=
  mkWorld [(dir_d, Dir); (dir_o, Dir);
           (in_d (lit "img003.png"), File (lit "A"));
           (in_d (lit "img7.png"), File (lit "B"));
           (in_d (lit "notes.txt"), File (lit "C"));
           (in_d (lit ".hidden"), File []);
           (in_d (lit "sub"), Dir)] [].

(** [d] holds [img7.png]; [o] already holds a [photo07.png]. *)
Definition world_taken : world :=
  mkWorld [(dir_d, Dir); (dir_o, Dir);
           (in_d (lit "img7.png"), File (lit "new"));
           (in_o (lit "photo07.png"), File (lit "old"))] [].

(** [d] holds one file, already formatted under the prefix ["p"]. *)
Definition world_formatted_only : world :=
  mkWorld [(dir_d, Dir); (in_d (lit "p01.jpg"), File (lit "A"))] [].

(** [d] lists a file already formatted under ["p"], then one that is not;
    [o] is empty. *)
Definition world_mixed : world :=
  mkWorld [(dir_d, Dir); (dir_o, Dir);
           (in_d (lit "p01.jpg"), File (lit "A"));
           (in_d (lit "x2.jpg"), File (lit "B"))] [].

(** [d] holds the single file [x3], which has no extension. *)
Definition world_x3 : world :=
  mkWorld [(dir_d, Dir); (in_d (lit "x3"), File (lit "A"))] [].

(** [p] is [src] or lies below it: the entries a rename of [src] moves. *)
Definition below (src p : Path) : bool :=
  if str_eq_dec (anchor p) (anchor src) then
    match strip_parts (parts src) (parts p) with
    | Some _ => true
    | None => false
    end
  else false.

(* ================================================================= *)
(** ** Strings: basic facts *)

Lemma startswith_app (p r : str) : startswith (p ++ r) p = true.
Proof.
  induction p as [|a p IH]; simpl; [reflexivity|].
  now rewrite Ascii.eqb_refl.
Qed.

Lemma startswith_inv (s p : str) :
  startswith s p = true -> exists r, s = p ++ r.
Proof.
  revert s; induction p as [|a p IH]; intros s H.
  - now exists s.
  - destruct s as [|b s]; simpl in H; [discriminate|].
    apply andb_true_iff in H as [Hab Hs].
    apply Ascii.eqb_eq in Hab; subst b.
    destruct (IH _ Hs) as [r ->]. now exists r.
Qed.

Lemma skipn_length_app (p r : str) : skipn (length p) (p ++ r) = r.
Proof. induction p; simpl; auto. Qed.

Lemma firstn_length_app (p r : str) : firstn (length p) (p ++ r) = p.
Proof. induction p; simpl; f_equal; auto. Qed.

Lemma isdecimal_isdigit c : isdecimal c = true -> isdigit c = true.
Proof. unfold isdecimal, isdigit; intros ->; reflexivity. Qed.

Lemma str_index_nonempty_sub (s sub : str) k :
  sub <> [] -> str_index s sub = Some k -> s <> [].
Proof.
  intros Hsub H ->. destruct sub; [congruence|]. discriminate.
Qed.

(* ================================================================= *)
(** ** Index extractor: the hint path *)

Lemma skip_non_digits_head (s : str) :
  match s with [] => True | c :: _ => isdigit c = true end ->
  skip_non_digits s = s.
Proof. destruct s as [|c r]; simpl; [reflexivity|]. now intros ->. Qed.

Lemma parse_run_non_digit c r : isdigit c = false -> parse_run (c :: r) = (-1)%Z.
Proof. intros H; unfold parse_run; simpl; now rewrite H. Qed.

Lemma find_index_hint (f h : str) k :
  str_index h placeholder = Some k ->
  find_index f (Some h) = Ok (parse_run (skipn k f)).
Proof.
  intros H.
  assert (Hne : h <> []) by (eapply str_index_nonempty_sub; eauto; discriminate).
  destruct h as [|c h]; [congruence|]. unfold find_index. now rewrite H.
Qed.

(** C1, amended: with the placeholder at offset [k] of a hint, [find_index]
    parses the digit run at the very start of the filename without its
    first [k] characters.  That is the no-hint result on that remainder
    when the remainder is empty or begins with a digit character; when it
    begins with another character the result is -1, since the hint path
    skips no leading non-digit characters. *)
Theorem find_index_hint_vs_no_hint (f h : str) (k : nat)
    (Hk : str_index h placeholder = Some k) :
  (match skipn k f with [] => True | c :: _ => isdigit c = true end ->
   find_index f (Some h) = find_index (skipn k f) None) /\
  (forall c r, skipn k f = c :: r -> isdigit c = false ->
   find_index f (Some h) = Ok (-1)%Z).
Proof.
  rewrite (find_index_hint f h k Hk). split.
  - intros Hhd. simpl. now rewrite skip_non_digits_head.
  - intros c r -> Hc. now rewrite parse_run_non_digit.
Qed.

Lemma find_index_hint_vs_no_hint_witness :
  find_index (lit "ab12cd34") (Some (lit "xx{}yy"))
  = find_index (skipn 2 (lit "ab12cd34")) None
  /\ find_index (lit "ab12cd34") (Some (lit "{}")) = Ok (-1)%Z.
Proof.
  split.
  - apply (proj1 (find_index_hint_vs_no_hint
                    (lit "ab12cd34") (lit "xx{}yy") 2%nat eq_refl)).
    reflexivity.
  - apply (proj2 (find_index_hint_vs_no_hint
                    (lit "ab12cd34") (lit "{}") 0%nat eq_refl)
                 "a"%char (lit "b12cd34")); reflexivity.
Defined.

(** C1 as stated fails: with the hint ["{}"] (placeholder at offset 0) the
    filename ["ab12"] gives -1, while the no-hint search on the same
    remainder skips ["ab"] and gives 12. *)
Lemma find_index_hint_differs_from_no_hint :
  exists (f h : str) (k : nat),
    str_index h placeholder = Some k /\
    find_index f (Some h) = Ok (-1)%Z /\
    find_index (skipn k f) None = Ok 12%Z.
Proof.
  exists (lit "ab12"), (lit "{}"), 0%nat. repeat split.
Qed.

(** C2, amended: the hint ["scan_{}.jpg"] puts the placeholder at offset 5;
    ["99scan_042.jpg"] without its first five characters is ["n_042.jpg"],
    which begins with no digit, so [find_index] gives -1 and
    [formatted_filename] the empty no-index signal.  On ["scan_042.jpg"]
    the same hint gives 42 and the target name ["p42.jpg"]. *)
Theorem scan_hint_scenario :
  str_index (lit "scan_{}.jpg") placeholder = Some 5%nat /\
  skipn 5 (lit "99scan_042.jpg") = lit "n_042.jpg" /\
  find_index (lit "99scan_042.jpg") (Some (lit "scan_{}.jpg")) = Ok (-1)%Z /\
  formatted_filename (mkPath [] [lit "99scan_042.jpg"]) (lit "p")
    (Some (lit "scan_{}.jpg")) = Ok [] /\
  find_index (lit "scan_042.jpg") (Some (lit "scan_{}.jpg")) = Ok 42%Z /\
  formatted_filename (mkPath [] [lit "scan_042.jpg"]) (lit "p")
    (Some (lit "scan_{}.jpg")) = Ok (lit "p42.jpg").
Proof. repeat split. Qed.

(** C2 as stated fails: the extracted index is the sentinel -1, not 42,
    and the name returned is empty, not ["p42.jpg"]. *)
Lemma scan_hint_scenario_no_index :
  exists (index : Z) (target : str),
    find_index (lit "99scan_042.jpg") (Some (lit "scan_{}.jpg")) = Ok index /\
    formatted_filename (mkPath [] [lit "99scan_042.jpg"]) (lit "p")
      (Some (lit "scan_{}.jpg")) = Ok target /\
    index <> 42%Z /\ target <> lit "p42.jpg".
Proof.
  exists (-1)%Z, []. repeat split; discriminate.
Qed.

(* ================================================================= *)
(** ** The [int] built-in: which strings it accepts *)

Lemma decimal_not_special c :
  isdecimal c = true ->
  int_space c = false /\ Ascii.eqb c "+"%char = false /\
  Ascii.eqb c "-"%char = false /\ Ascii.eqb c "_"%char = false.
Proof.
  destruct c as [[] [] [] [] [] [] [] []]; vm_compute; intros H;
    try discriminate H; repeat split.
Qed.

Lemma special_not_space c :
  Ascii.eqb c "+"%char = true \/ Ascii.eqb c "-"%char = true ->
  int_space c = false /\ isdecimal c = false.
Proof.
  intros [H|H]; apply Ascii.eqb_eq in H; subst c; split; reflexivity.
Qed.

Lemma space_not_digitlike c :
  int_space c = true ->
  isdecimal c = false /\ Ascii.eqb c "_"%char = false.
Proof.
  destruct c as [[] [] [] [] [] [] [] []]; vm_compute; intros H;
    try discriminate H; repeat split.
Qed.

Lemma lstrip_spaces (l s : str) :
  forallb int_space l = true -> lstrip (l ++ s) = lstrip s.
Proof.
  induction l as [|c l IH]; simpl; [reflexivity|].
  intros H; apply andb_true_iff in H as [Hc Hl]. rewrite Hc. auto.
Qed.

Lemma lstrip_head (c : ascii) (s : str) :
  int_space c = false -> lstrip (c :: s) = c :: s.
Proof. intros H; simpl; now rewrite H. Qed.

Lemma lstrip_all_spaces (s : str) :
  forallb int_space s = true -> lstrip s = [].
Proof.
  intros H. rewrite <- (app_nil_r s). now rewrite lstrip_spaces.
Qed.

Lemma lstrip_split (s : str) :
  exists l, s = l ++ lstrip s /\ forallb int_space l = true.
Proof.
  induction s as [|c s [l [Hs Hl]]]; simpl.
  - now exists [].
  - destruct (int_space c) eqn:Hc.
    + exists (c :: l). simpl. rewrite Hc, Hl. split; [now f_equal|reflexivity].
    + now exists [].
Qed.

Lemma lstrip_nil_inv (s : str) : lstrip s = [] -> forallb int_space s = true.
Proof.
  intros H. destruct (lstrip_split s) as [l [Hs Hl]].
  rewrite H, app_nil_r in Hs. now subst.
Qed.

Lemma digit_groups_head ds :
  digit_groups ds -> exists c r, ds = c :: r /\ isdecimal c = true.
Proof. intros H; destruct H; eauto. Qed.

Lemma scan_digits_after_underscore acc c (s : str) :
  isdecimal c = true ->
  scan_digits true acc (c :: s) = scan_digits false acc (c :: s).
Proof. intros H; simpl; now rewrite H. Qed.

(** Scanning grouped digits reads them all and stops at a blank or at the
    end. *)
Lemma scan_digits_groups ds :
  digit_groups ds ->
  forall acc r, forallb int_space r = true ->
  exists v, scan_digits false acc (ds ++ r) = Some (v, r).
Proof.
  induction 1 as [c Hc | c s Hc Hs IH | c s Hc Hs IH]; intros acc r Hr.
  - simpl. rewrite Hc. destruct r as [|x r]; simpl; [eauto|].
    simpl in Hr. apply andb_true_iff in Hr as [Hx _].
    destruct (space_not_digitlike x Hx) as [-> ->]. eauto.
  - simpl. rewrite Hc. apply IH, Hr.
  - destruct (digit_groups_head s Hs) as [y [t [-> Hy]]].
    change ((c :: "_"%char :: y :: t) ++ r)
      with (c :: "_"%char :: ((y :: t) ++ r)).
    cbn [scan_digits]. rewrite Hc.
    change (isdecimal "_"%char) with false. cbv iota.
    change (Ascii.eqb "_"%char "_"%char) with true. cbv iota.
    change ((y :: t) ++ r) with (y :: (t ++ r)).
    rewrite scan_digits_after_underscore by assumption.
    apply (IH _ r Hr).
Qed.

(** What a successful scan has read. *)
Lemma scan_digits_inv (s : str) :
  forall b acc v rest,
    scan_digits b acc s = Some (v, rest) ->
    match s with
    | c :: r =>
        if isdecimal c then exists ds, s = ds ++ rest /\ digit_groups ds
        else if Ascii.eqb c "_"%char
             then exists ds, r = ds ++ rest /\ digit_groups ds
             else rest = s
    | [] => rest = []
    end.
Proof.
  induction s as [|c r IH]; intros b acc v rest H.
  - simpl in H. destruct b; [discriminate|]. now inversion H.
  - simpl in H. destruct (isdecimal c) eqn:Hc.
    + specialize (IH _ _ _ _ H). destruct r as [|x r'].
      * subst rest. exists [c]. split; [reflexivity|now constructor].
      * destruct (isdecimal x) eqn:Hx.
        -- destruct IH as [ds [Hds Hg]]. exists (c :: ds).
           split; [simpl; now f_equal | now apply dg_next].
        -- destruct (Ascii.eqb x "_"%char) eqn:Hu.
           ++ apply Ascii.eqb_eq in Hu; subst x.
              destruct IH as [ds [Hds Hg]]. exists (c :: "_"%char :: ds).
              split; [simpl; now rewrite Hds | now apply dg_under].
           ++ subst rest. exists [c]. split; [reflexivity|now constructor].
    + destruct (Ascii.eqb c "_"%char) eqn:Hu.
      * destruct b; [discriminate|].
        destruct r as [|x r']; [discriminate|].
        specialize (IH _ _ _ _ H). simpl in H.
        destruct (isdecimal x) eqn:Hx; [exact IH|].
        destruct (Ascii.eqb x "_"%char); discriminate.
      * destruct b; [discriminate|]. now inversion H.
Qed.

(** [int()] succeeds exactly on the integer literals. *)
Lemma py_int_accepts_iff (s : str) :
  (exists n, py_int s = Some n) <-> int_literal s.
Proof.
  split.
  - intros [n H]. unfold py_int in H.
    destruct (lstrip_split s) as [l [Hs Hl]].
    set (s1 := lstrip s) in *.
    assert (Hbody : forall sign s2,
      match s2 with
      | c :: _ =>
          if isdecimal c then
            match scan_digits false 0 s2 with
            | Some (v, rest) =>
                match lstrip rest with
                | [] => Some (sign * v)%Z
                | _ :: _ => None
                end
            | None => None
            end
          else None
      | [] => None
      end = Some n ->
      exists ds r, s2 = ds ++ r /\ digit_groups ds /\ forallb int_space r = true).
    { intros sign s2 E. destruct s2 as [|c t]; [discriminate|].
      destruct (isdecimal c) eqn:Hc; [|discriminate].
      destruct (scan_digits false 0 (c :: t)) as [[v rest]|] eqn:Hscan;
        [|discriminate].
      destruct (lstrip rest) eqn:Hrest; [|discriminate].
      apply scan_digits_inv in Hscan. rewrite Hc in Hscan.
      destruct Hscan as [ds [Hds Hg]].
      exists ds, rest. repeat split; auto. now apply lstrip_nil_inv. }
    destruct s1 as [|c r] eqn:Es1.
    + discriminate.
    + destruct (Ascii.eqb c "+"%char) eqn:Hp.
      * apply Ascii.eqb_eq in Hp; subst c.
        destruct (Hbody _ _ H) as [ds [t [-> [Hg Ht]]]].
        exists l, ["+"%char], ds, t. unfold is_sign. repeat split; auto.
      * destruct (Ascii.eqb c "-"%char) eqn:Hm.
        -- apply Ascii.eqb_eq in Hm; subst c.
           destruct (Hbody _ _ H) as [ds [t [-> [Hg Ht]]]].
           exists l, ["-"%char], ds, t. unfold is_sign. repeat split; auto.
        -- destruct (Hbody 1%Z (c :: r) H) as [ds [t [E [Hg Ht]]]].
           exists l, [], ds, t. unfold is_sign. simpl.
           rewrite <- E. repeat split; auto.
  - intros [l [sg [ds [r [-> [Hl [Hsg [Hg Hr]]]]]]]].
    destruct (digit_groups_head ds Hg) as [c [t [Eds Hc]]].
    destruct (decimal_not_special c Hc) as [Hsp [Hp [Hm _]]].
    destruct (scan_digits_groups ds Hg 0%Z r Hr) as [v Hv].
    unfold py_int. rewrite lstrip_spaces by assumption.
    destruct Hsg as [-> | [-> | ->]]; simpl app.
    + subst ds. simpl app in *. rewrite lstrip_head by assumption.
      rewrite Hp, Hm. cbv beta iota.
      rewrite Hc, Hv, (lstrip_all_spaces r Hr). eauto.
    + rewrite lstrip_head by reflexivity.
      change (Ascii.eqb "+"%char "+"%char) with true. cbv iota.
      subst ds. simpl app in *. cbv beta iota.
      rewrite Hc, Hv, (lstrip_all_spaces r Hr). eauto.
    + rewrite lstrip_head by reflexivity.
      change (Ascii.eqb "-"%char "+"%char) with false.
      change (Ascii.eqb "-"%char "-"%char) with true. cbv iota.
      subst ds. simpl app in *. cbv beta iota.
      rewrite Hc, Hv, (lstrip_all_spaces r Hr). eauto.
Qed.

Lemma int_literal_nonempty (s : str) : int_literal s -> s <> [].
Proof.
  intros H. apply py_int_accepts_iff in H as [n H]. now intros ->.
Qed.

(* ================================================================= *)
(** ** Name formatter: already formatted files *)

Lemma is_formatted_intro (filepath : Path) (prefix rest : str) (n : Z) :
  stem filepath = prefix ++ rest -> py_int rest = Some n ->
  is_formatted filepath prefix = true.
Proof.
  intros Hs Hn. unfold is_formatted.
  now rewrite Hs, startswith_app, skipn_length_app, Hn.
Qed.

(** C4: [is_formatted] holds exactly when the stem is the prefix followed
    by a remainder that is not empty and that parses entirely as an
    integer, that is, a remainder that is an integer literal: blanks, an
    optional sign, grouped digits, blanks, and nothing else. *)
Theorem is_formatted_iff (filepath : Path) (prefix : str) :
  is_formatted filepath prefix = true <->
  exists rest,
    stem filepath = prefix ++ rest /\ rest <> [] /\ int_literal rest.
Proof.
  unfold is_formatted. split.
  - destruct (startswith (stem filepath) prefix) eqn:Hs; [|discriminate].
    apply startswith_inv in Hs as [rest Hs]. rewrite Hs, skipn_length_app.
    destruct (py_int rest) as [n|] eqn:Hn; [intros _|discriminate].
    assert (Hl : int_literal rest) by (apply py_int_accepts_iff; eauto).
    exists rest. repeat split; eauto using int_literal_nonempty.
  - intros (rest & -> & _ & Hl).
    apply py_int_accepts_iff in Hl as [n Hn].
    now rewrite startswith_app, skipn_length_app, Hn.
Qed.

Lemma is_formatted_iff_witness :
  is_formatted (in_d (lit "p01.jpg")) (lit "p") = true /\
  is_formatted (in_d (lit "p-3.tar.gz")) (lit "p") = false /\
  is_formatted (in_d (lit "p.jpg")) (lit "p") = false /\
  is_formatted (in_d (lit "q01.jpg")) (lit "p") = false.
Proof.
  split; [|split; [|split]].
  - apply (proj2 (is_formatted_iff (in_d (lit "p01.jpg")) (lit "p"))).
    exists (lit "01"). split; [reflexivity|]. split; [discriminate|].
    exists [], [], (lit "01"), [].
    repeat split; [left; reflexivity | ].
    apply dg_next; [reflexivity | now constructor].
  - destruct (is_formatted (in_d (lit "p-3.tar.gz")) (lit "p")) eqn:E;
      [|reflexivity].
    apply (proj1 (is_formatted_iff (in_d (lit "p-3.tar.gz")) (lit "p"))) in E
      as (rest & Hs & _ & Hl).
    change (stem (in_d (lit "p-3.tar.gz"))) with (lit "p" ++ lit "-3.tar") in Hs.
    apply app_inv_head in Hs. subst rest.
    apply py_int_accepts_iff in Hl as [n Hn]. discriminate Hn.
  - destruct (is_formatted (in_d (lit "p.jpg")) (lit "p")) eqn:E;
      [|reflexivity].
    apply (proj1 (is_formatted_iff (in_d (lit "p.jpg")) (lit "p"))) in E
      as (rest & Hs & Hne & _).
    change (stem (in_d (lit "p.jpg"))) with (lit "p" ++ []) in Hs.
    apply app_inv_head in Hs. congruence.
  - destruct (is_formatted (in_d (lit "q01.jpg")) (lit "p")) eqn:E;
      [|reflexivity].
    apply (proj1 (is_formatted_iff (in_d (lit "q01.jpg")) (lit "p"))) in E
      as (rest & Hs & _ & _).
    discriminate Hs.
Defined.

Lemma rename_file_formatted (path : Path) (prefix : str) :
  is_formatted path prefix = true ->
  forall format w, rename_file path prefix format w = (Ok false, w).
Proof. intros H format w. unfold rename_file. now rewrite H. Qed.

(** C9: when the stem is the prefix followed by an integer literal in the
    wide sense of [int()] (a signed number, a number between blanks,
    digits grouped by underscores), the file counts as formatted, and
    [rename_file] returns false and changes nothing. *)
Theorem is_formatted_beyond_digit_runs (path : Path) (prefix rest : str)
    (Hstem : stem path = prefix ++ rest) (Hlit : int_literal rest) :
  is_formatted path prefix = true /\
  forall format w, rename_file path prefix format w = (Ok false, w).
Proof.
  apply py_int_accepts_iff in Hlit as [n Hn].
  assert (H : is_formatted path prefix = true)
    by exact (is_formatted_intro path prefix rest n Hstem Hn).
  split; [exact H | now apply rename_file_formatted].
Qed.

Lemma is_formatted_beyond_digit_runs_witness :
  (is_formatted (mkPath [] [lit "p-3.jpg"]) (lit "p") = true /\
   forall format w,
     rename_file (mkPath [] [lit "p-3.jpg"]) (lit "p") format w = (Ok false, w))
  /\
  (is_formatted (mkPath [] [lit "p+7"]) (lit "p") = true /\
   forall format w,
     rename_file (mkPath [] [lit "p+7"]) (lit "p") format w = (Ok false, w))
  /\
  (is_formatted (mkPath [] [lit "p 5 .txt"]) (lit "p") = true /\
   forall format w,
     rename_file (mkPath [] [lit "p 5 .txt"]) (lit "p") format w = (Ok false, w))
  /\
  (is_formatted (mkPath [] [lit "p1_0.png"]) (lit "p") = true /\
   forall format w,
     rename_file (mkPath [] [lit "p1_0.png"]) (lit "p") format w = (Ok false, w)).
Proof.
  split; [|split; [|split]].
  - apply (is_formatted_beyond_digit_runs
             (mkPath [] [lit "p-3.jpg"]) (lit "p") (lit "-3") eq_refl).
    exists [], ["-"%char], (lit "3"), [].
    repeat split; [right; right; reflexivity | now constructor].
  - apply (is_formatted_beyond_digit_runs
             (mkPath [] [lit "p+7"]) (lit "p") (lit "+7") eq_refl).
    exists [], ["+"%char], (lit "7"), [].
    repeat split; [right; left; reflexivity | now constructor].
  - apply (is_formatted_beyond_digit_runs
             (mkPath [] [lit "p 5 .txt"]) (lit "p") (lit " 5 ") eq_refl).
    exists (lit " "), [], (lit "5"), (lit " ").
    repeat split; [left; reflexivity | now constructor].
  - apply (is_formatted_beyond_digit_runs
             (mkPath [] [lit "p1_0.png"]) (lit "p") (lit "1_0") eq_refl).
    exists [], [], (lit "1_0"), [].
    repeat split; [left; reflexivity | ].
    apply dg_under; [reflexivity | now constructor].
Defined.

(* ================================================================= *)
(** ** Printing integers *)

Lemma digits_fuel_app (f : nat) :
  forall n acc, digits_fuel f n acc = digits_fuel f n [] ++ acc.
Proof.
  induction f as [|f IH]; intros n acc; simpl; [reflexivity|].
  destruct (n <? 10)%Z; [reflexivity|].
  rewrite (IH _ (_ :: acc)), (IH _ [_]), <- app_assoc. reflexivity.
Qed.

Lemma pow2_succ (f : nat) : (2 ^ Z.of_nat (S f) = 2 * 2 ^ Z.of_nat f)%Z.
Proof. rewrite Nat2Z.inj_succ, Z.pow_succ_r by lia. reflexivity. Qed.

Lemma div10_lt_pow2 (n : Z) (f : nat) :
  (0 <= n < 2 ^ Z.of_nat (S f))%Z -> (0 <= n / 10 < 2 ^ Z.of_nat f)%Z.
Proof.
  rewrite pow2_succ. intros [H0 H].
  assert (0 < 2 ^ Z.of_nat f)%Z by (apply Z.pow_pos_nonneg; lia).
  split; [apply Z.div_pos; lia | apply Z.div_lt_upper_bound; lia].
Qed.

(** Any fuel above the binary length gives the same digits. *)
Lemma digits_fuel_enough (f1 : nat) :
  forall f2 n acc,
    (0 <= n < 2 ^ Z.of_nat (S f1))%Z -> (n < 2 ^ Z.of_nat (S f2))%Z ->
    digits_fuel (S f1) n acc = digits_fuel (S f2) n acc.
Proof.
  induction f1 as [|f1 IH]; intros f2 n acc H1 H2.
  - change (2 ^ Z.of_nat 1)%Z with 2%Z in H1. simpl.
    replace (n <? 10)%Z with true by (symmetry; apply Z.ltb_lt; lia).
    reflexivity.
  - cbn [digits_fuel]. destruct (n <? 10)%Z eqn:Hn; [reflexivity|].
    apply Z.ltb_ge in Hn.
    destruct f2 as [|f2].
    + change (2 ^ Z.of_nat 1)%Z with 2%Z in H2. lia.
    + apply IH; [apply div10_lt_pow2; lia|].
      apply (div10_lt_pow2 n (S f2)); lia.
Qed.

Lemma lt_pow2_log2 (n : Z) :
  (0 <= n)%Z -> (n < 2 ^ Z.of_nat (S (Z.to_nat (Z.log2 n))))%Z.
Proof.
  intros H. rewrite Nat2Z.inj_succ, Z2Nat.id by apply Z.log2_nonneg.
  destruct (Z.eq_dec n 0) as [->|Hn]; [reflexivity|].
  apply Z.log2_spec. lia.
Qed.

Lemma digits_fuel_S (f : nat) (n : Z) (acc : str) :
  digits_fuel (S f) n acc =
  if (n <? 10)%Z then digit_char (n mod 10) :: acc
  else digits_fuel f (n / 10) (digit_char (n mod 10) :: acc).
Proof. reflexivity. Qed.

Lemma digits_small (n : Z) : (n < 10)%Z -> digits n = [digit_char (n mod 10)].
Proof.
  intros H. unfold digits. simpl.
  now replace (n <? 10)%Z with true by (symmetry; apply Z.ltb_lt; lia).
Qed.

Lemma digits_step (n : Z) :
  (10 <= n)%Z -> digits n = digits (n / 10) ++ [digit_char (n mod 10)].
Proof.
  intros H. unfold digits.
  assert (Hlog : (3 <= Z.log2 n)%Z).
  { change 3%Z with (Z.log2 8). apply Z.log2_le_mono. lia. }
  destruct (Z.to_nat (Z.log2 n)) as [|f] eqn:Hf; [lia|].
  rewrite digits_fuel_S.
  replace (n <? 10)%Z with false by (symmetry; apply Z.ltb_ge; lia).
  rewrite digits_fuel_app. f_equal.
  apply digits_fuel_enough.
  - apply div10_lt_pow2. rewrite <- Hf. split; [lia|apply lt_pow2_log2; lia].
  - apply lt_pow2_log2. apply Z.div_pos; lia.
Qed.

Lemma digit_char_decimal (d : Z) :
  (0 <= d <= 9)%Z ->
  isdecimal (digit_char d) = true /\ digit_value (digit_char d) = d.
Proof.
  intros H.
  assert (E : (d = 0 \/ d = 1 \/ d = 2 \/ d = 3 \/ d = 4 \/ d = 5 \/ d = 6
               \/ d = 7 \/ d = 8 \/ d = 9)%Z) by lia.
  repeat (destruct E as [-> | E]; [split; reflexivity | ]). subst; split; reflexivity.
Qed.

Lemma decimal_value_snoc (ds : str) (c : ascii) :
  decimal_value (ds ++ [c]) = (10 * decimal_value ds + digit_value c)%Z.
Proof. unfold decimal_value. now rewrite fold_left_app. Qed.

(** Induction on a non-negative integer through its decimal prefix. *)
Lemma decimal_ind (P : Z -> Prop) :
  (forall n, 0 <= n < 10 -> P n)%Z ->
  (forall n, 10 <= n -> P (n / 10) -> P n)%Z ->
  forall n, (0 <= n)%Z -> P n.
Proof.
  intros Hsmall Hstep n.
  induction n as [n IH] using (well_founded_induction (Z.lt_wf 0)).
  intros Hn. destruct (Z_lt_dec n 10) as [Hs|Hb].
  - apply Hsmall; lia.
  - assert (0 <= n / 10 < n)%Z
      by (split; [apply Z.div_pos; lia | apply Z.div_lt; lia]).
    apply Hstep; [lia|]. apply IH; lia.
Qed.

Lemma forallb_snoc {A} (f : A -> bool) (l : list A) (x : A) :
  forallb f (l ++ [x]) = forallb f l && f x.
Proof. rewrite forallb_app. simpl. now rewrite andb_true_r. Qed.

Lemma digits_decimal (n : Z) :
  (0 <= n)%Z -> forallb isdecimal (digits n) = true.
Proof.
  revert n. apply decimal_ind.
  - intros n H. rewrite digits_small by lia. simpl.
    rewrite (proj1 (digit_char_decimal (n mod 10) ltac:(rewrite Z.mod_small; lia))).
    reflexivity.
  - intros n H IH. rewrite digits_step, forallb_snoc, IH by assumption.
    apply digit_char_decimal.
    pose proof (Z.mod_pos_bound n 10). lia.
Qed.

Lemma digits_value (n : Z) : (0 <= n)%Z -> decimal_value (digits n) = n.
Proof.
  revert n. apply decimal_ind.
  - intros n H. rewrite digits_small by lia. unfold decimal_value. simpl.
    rewrite (proj2 (digit_char_decimal (n mod 10) ltac:(rewrite Z.mod_small; lia))).
    apply Z.mod_small; lia.
  - intros n H IH. rewrite digits_step, decimal_value_snoc, IH by assumption.
    rewrite (proj2 (digit_char_decimal (n mod 10)
                      ltac:(pose proof (Z.mod_pos_bound n 10); lia))).
    symmetry. apply Z.div_mod. lia.
Qed.

Lemma digits_length_pos (n : Z) : (0 <= n)%Z -> (1 <= length (digits n))%nat.
Proof.
  intros H. destruct (Z_lt_dec n 10).
  - rewrite digits_small by assumption. simpl; lia.
  - rewrite digits_step, length_app by lia. simpl; lia.
Qed.

Lemma digits_two (n : Z) :
  (10 <= n <= 99)%Z -> digits n = [digit_char (n / 10); digit_char (n mod 10)].
Proof.
  intros H.
  assert (0 <= n / 10 < 10)%Z
    by (split; [apply Z.div_pos; lia | apply Z.div_lt_upper_bound; lia]).
  rewrite digits_step, digits_small, Z.mod_small by lia. reflexivity.
Qed.

Lemma digits_long (n : Z) : (100 <= n)%Z -> (3 <= length (digits n))%nat.
Proof.
  intros H.
  assert (10 <= n / 10)%Z by (apply Z.div_le_lower_bound; lia).
  rewrite digits_step, length_app by lia.
  rewrite (digits_step (n / 10)), length_app by lia.
  pose proof (digits_length_pos (n / 10 / 10) ltac:(apply Z.div_pos; lia)).
  simpl; lia.
Qed.

Lemma digits_head (n : Z) :
  (0 < n)%Z -> digit_value (hd "0"%char (digits n)) <> 0%Z.
Proof.
  intros Hn. assert (H0 : (0 <= n)%Z) by lia. revert n H0 Hn.
  apply (decimal_ind (fun n => 0 < n -> digit_value (hd "0"%char (digits n)) <> 0)%Z).
  - intros n H Hn. rewrite digits_small by lia. simpl.
    rewrite Z.mod_small by lia.
    rewrite (proj2 (digit_char_decimal n ltac:(lia))). lia.
  - intros n H IH _. rewrite digits_step by assumption.
    assert (Hq : (0 < n / 10)%Z) by (apply Z.div_str_pos; lia).
    pose proof (digits_length_pos (n / 10) ltac:(lia)) as Hl.
    destruct (digits (n / 10)) as [|c r] eqn:E; [simpl in Hl; lia|].
    simpl. simpl in IH. now apply IH.
Qed.

Lemma format_02d_decimal (n : Z) :
  (0 <= n)%Z ->
  format_02d n <> [] /\ forallb isdecimal (format_02d n) = true /\
  decimal_value (format_02d n) = n.
Proof.
  intros H. unfold format_02d.
  replace (n <? 0)%Z with false by (symmetry; apply Z.ltb_ge; lia).
  destruct (n <? 10)%Z eqn:Hn.
  - split; [discriminate|]. simpl. rewrite digits_decimal by assumption.
    split; [reflexivity|].
    change ("0"%char :: digits n) with ([ "0"%char ] ++ digits n).
    unfold decimal_value. rewrite fold_left_app. simpl.
    apply digits_value; assumption.
  - pose proof (digits_length_pos n H).
    repeat split; [ | now apply digits_decimal | now apply digits_value].
    intros E; rewrite E in *; simpl in *; lia.
Qed.

(** [int()] on a run of decimal digits gives its value. *)
Lemma scan_digits_plain (ds : str) :
  forallb isdecimal ds = true ->
  forall acc,
    scan_digits false acc ds
    = Some (fold_left (fun a c => (10 * a + digit_value c)%Z) ds acc, []).
Proof.
  induction ds as [|c ds IH]; intros H acc; simpl; [reflexivity|].
  simpl in H. apply andb_true_iff in H as [Hc Hds]. rewrite Hc. now apply IH.
Qed.

Lemma py_int_decimal (ds : str) :
  ds <> [] -> forallb isdecimal ds = true ->
  py_int ds = Some (decimal_value ds).
Proof.
  intros Hne H. destruct ds as [|c ds]; [congruence|].
  pose proof H as Hall. simpl in H. apply andb_true_iff in H as [Hc Hds].
  destruct (decimal_not_special c Hc) as [Hsp [Hp [Hm _]]].
  unfold py_int. rewrite lstrip_head by assumption.
  rewrite Hp, Hm. cbv beta iota. rewrite Hc.
  rewrite (scan_digits_plain (c :: ds) Hall). simpl lstrip. cbv iota.
  unfold decimal_value. f_equal. lia.
Qed.

Lemma decimal_value_nonneg (ds : str) :
  forallb isdecimal ds = true -> (0 <= decimal_value ds)%Z.
Proof.
  intros H. unfold decimal_value.
  assert (G : forall acc, (0 <= acc)%Z ->
            (0 <= fold_left (fun a c => 10 * a + digit_value c) ds acc)%Z).
  { induction ds as [|c ds IH]; intros acc Ha; cbn [fold_left]; [assumption|].
    simpl in H. apply andb_true_iff in H as [Hc Hds].
    apply IH; [assumption|].
    unfold isdecimal in Hc. apply andb_true_iff in Hc as [H1 H2].
    apply Z.leb_le in H1. unfold digit_value. lia. }
  apply G. lia.
Qed.

(* ================================================================= *)
(** ** Name formatter: the rendered name *)

Lemma formatted_filename_index (path : Path) (prefix : str)
    (format : option str) (n : Z) :
  find_index (name path) format = Ok n -> n <> (-1)%Z ->
  formatted_filename path prefix format
  = Ok (prefix ++ format_02d n ++ suffix path).
Proof.
  intros H Hn. unfold formatted_filename. rewrite H. simpl.
  now replace (n =? -1)%Z with false by (symmetry; apply Z.eqb_neq; assumption).
Qed.

(** C8: when the extracted index [n] is between 0 and 99 the name is the
    prefix, the two digits of [n] (tens, then units) and the extension;
    when [n] is 100 or more it is the prefix, all the decimal digits of
    [n] (three or more, no leading zero, reading back as [n]) and the
    extension. *)
Theorem formatted_filename_renders (path : Path) (prefix : str)
    (format : option str) (n : Z)
    (Hidx : find_index (name path) format = Ok n) :
  ((0 <= n <= 99)%Z ->
   formatted_filename path prefix format
   = Ok (prefix ++ [digit_char (n / 10); digit_char (n mod 10)] ++ suffix path)
   /\ isdecimal (digit_char (n / 10)) = true
   /\ isdecimal (digit_char (n mod 10)) = true
   /\ (10 * digit_value (digit_char (n / 10))
       + digit_value (digit_char (n mod 10)) = n)%Z) /\
  ((100 <= n)%Z ->
   exists ds,
     formatted_filename path prefix format = Ok (prefix ++ ds ++ suffix path) /\
     forallb isdecimal ds = true /\ decimal_value ds = n /\
     (3 <= length ds)%nat /\ digit_value (hd "0"%char ds) <> 0%Z).
Proof.
  split.
  - intros Hn.
    assert (Hq : (0 <= n / 10 <= 9)%Z).
    { assert (n / 10 < 10)%Z by (apply Z.div_lt_upper_bound; lia).
      assert (0 <= n / 10)%Z by (apply Z.div_pos; lia). lia. }
    assert (Hr : (0 <= n mod 10 <= 9)%Z)
      by (pose proof (Z.mod_pos_bound n 10); lia).
    destruct (digit_char_decimal _ Hq) as [Hq1 Hq2].
    destruct (digit_char_decimal _ Hr) as [Hr1 Hr2].
    rewrite (formatted_filename_index path prefix format n Hidx) by lia.
    repeat split; auto.
    + do 3 f_equal. unfold format_02d.
      replace (n <? 0)%Z with false by (symmetry; apply Z.ltb_ge; lia).
      destruct (n <? 10)%Z eqn:H10.
      * apply Z.ltb_lt in H10. rewrite digits_small by assumption.
        now rewrite Z.div_small by lia.
      * apply Z.ltb_ge in H10. apply digits_two; lia.
    + rewrite Hq2, Hr2. symmetry. apply Z.div_mod. lia.
  - intros Hn. exists (digits n).
    rewrite (formatted_filename_index path prefix format n Hidx) by lia.
    unfold format_02d.
    replace (n <? 0)%Z with false by (symmetry; apply Z.ltb_ge; lia).
    replace (n <? 10)%Z with false by (symmetry; apply Z.ltb_ge; lia).
    repeat split.
    + apply digits_decimal; lia.
    + apply digits_value; lia.
    + apply digits_long; lia.
    + apply digits_head; lia.
Qed.

Lemma formatted_filename_renders_witness :
  (formatted_filename (mkPath [] [lit "img7.png"]) (lit "photo") None
   = Ok (lit "photo07.png")) /\
  (exists ds,
     formatted_filename (mkPath [] [lit "img12345.png"]) (lit "photo") None
     = Ok (lit "photo" ++ ds ++ lit ".png") /\
     forallb isdecimal ds = true /\ decimal_value ds = 12345%Z /\
     (3 <= length ds)%nat /\ digit_value (hd "0"%char ds) <> 0%Z).
Proof.
  split.
  - apply (proj1 (formatted_filename_renders
                    (mkPath [] [lit "img7.png"]) (lit "photo") None 7%Z eq_refl)).
    lia.
  - apply (proj2 (formatted_filename_renders
                    (mkPath [] [lit "img12345.png"]) (lit "photo") None
                    12345%Z eq_refl)).
    lia.
Defined.

(* ================================================================= *)
(** ** Index extractor: the search goes on into the extension *)

Lemma name_stem_suffix (p : Path) : name p = stem p ++ suffix p.
Proof.
  unfold stem, suffix.
  destruct ((0 <? rfind (name p) "."%char)
            && (rfind (name p) "."%char <? Z.of_nat (length (name p)) - 1))%Z.
  - symmetry. apply firstn_skipn.
  - symmetry. apply app_nil_r.
Qed.

Lemma skip_non_digits_app (a b : str) :
  forallb (fun c => negb (isdigit c)) a = true ->
  skip_non_digits (a ++ b) = skip_non_digits b.
Proof.
  induction a as [|c a IH]; simpl; [reflexivity|].
  intros H. apply andb_true_iff in H as [Hc Ha].
  apply negb_true_iff in Hc. rewrite Hc. auto.
Qed.

Lemma digit_run_app (run post : str) :
  forallb isdecimal run = true ->
  match post with [] => True | c :: _ => isdigit c = false end ->
  digit_run (run ++ post) = length run.
Proof.
  intros Hrun Hpost. induction run as [|c run IH]; simpl.
  - destruct post as [|x post]; simpl; [reflexivity|now rewrite Hpost].
  - simpl in Hrun. apply andb_true_iff in Hrun as [Hc Hrun].
    rewrite (isdecimal_isdigit c Hc). f_equal. auto.
Qed.

Lemma parse_run_decimal (run post : str) :
  run <> [] -> forallb isdecimal run = true ->
  match post with [] => True | c :: _ => isdigit c = false end ->
  parse_run (run ++ post) = decimal_value run.
Proof.
  intros Hne Hrun Hpost. unfold parse_run.
  rewrite digit_run_app, firstn_length_app, py_int_decimal by assumption.
  destruct run; [congruence|reflexivity].
Qed.

Lemma find_index_no_hint (f : str) (format : option str) :
  no_hint format = true ->
  find_index f format = Ok (parse_run (skip_non_digits f)).
Proof.
  destruct format as [[|c h]|]; simpl; intros H; try discriminate; reflexivity.
Qed.

(** C10, amended: with no hint, when no character of the stem is a digit
    for [isdigit] (neither an ASCII digit nor a digit such as a
    superscript) and the first run of such digits in the extension is
    made of ASCII decimal digits only, [find_index] returns the value of
    that run, which is not the sentinel, and [formatted_filename] returns
    the non-empty name made of the prefix, that value on two digits at
    least, and the extension. *)
Theorem find_index_reaches_extension (p : Path) (prefix : str)
    (format : option str) (pre run post : str)
    (Hfmt : no_hint format = true)
    (Hstem : forallb (fun c => negb (isdigit c)) (stem p) = true)
    (Hext : suffix p = pre ++ run ++ post)
    (Hpre : forallb (fun c => negb (isdigit c)) pre = true)
    (Hne : run <> [])
    (Hrun : forallb isdecimal run = true)
    (Hpost : match post with [] => True | c :: _ => isdigit c = false end) :
  find_index (name p) format = Ok (decimal_value run) /\
  (0 <= decimal_value run)%Z /\
  formatted_filename p prefix format
  = Ok (prefix ++ format_02d (decimal_value run) ++ suffix p) /\
  prefix ++ format_02d (decimal_value run) ++ suffix p <> [].
Proof.
  pose proof (decimal_value_nonneg run Hrun) as Hpos.
  assert (Hidx : find_index (name p) format = Ok (decimal_value run)).
  { rewrite find_index_no_hint by assumption.
    rewrite name_stem_suffix, Hext.
    rewrite !skip_non_digits_app by assumption.
    rewrite skip_non_digits_head.
    - now rewrite parse_run_decimal.
    - destruct run as [|c run]; [congruence|]. simpl in *.
      apply andb_true_iff in Hrun as [Hc _]. now apply isdecimal_isdigit. }
  repeat split; auto.
  - apply formatted_filename_index; [assumption|lia].
  - intros E. apply app_eq_nil in E as [_ E]. apply app_eq_nil in E as [E _].
    now apply (format_02d_decimal _ Hpos).
Qed.

Lemma find_index_reaches_extension_witness :
  find_index (lit "song.mp3") None = Ok 3%Z /\
  (0 <= 3)%Z /\
  formatted_filename (mkPath [] [lit "song.mp3"]) (lit "track") None
  = Ok (lit "track03.mp3") /\
  lit "track03.mp3" <> [].
Proof.
  apply (find_index_reaches_extension
           (mkPath [] [lit "song.mp3"]) (lit "track") None
           (lit ".mp") (lit "3") []); try reflexivity.
  discriminate.
Defined.

(** C10 as stated fails: the stem ["x²"] has no ASCII digit and the
    extension [".mp3"] has one, yet the search stops at the superscript,
    which [int()] refuses: the index is the sentinel and the name
    returned is empty. *)
Lemma find_index_stops_at_superscript :
  forallb (fun c => negb (isdecimal c)) (stem squared_mp3) = true /\
  existsb isdecimal (suffix squared_mp3) = true /\
  find_index (name squared_mp3) None = Ok (-1)%Z /\
  formatted_filename squared_mp3 (lit "track") None = Ok [].
Proof. repeat split. Qed.

(* ================================================================= *)
(** ** Transfer engine: the counts of the bulk operations *)

Lemma to_process_world (dir : Path) (w : world) :
  snd (to_process dir w) = w.
Proof. reflexivity. Qed.

Lemma rename_loop_counts (l : list Path) (prefix : str) (format : option str) :
  forall a b w a' b' w',
    rename_loop l prefix format a b w = (Ok (a', b'), w') ->
    (a' + b' = a + b + Z.of_nat (length l) /\ a <= a' /\ b <= b')%Z.
Proof.
  induction l as [|p l IH]; intros a b w a' b' w' H.
  - inversion H; subst. simpl. lia.
  - cbn [rename_loop] in H. unfold bind in H.
    destruct (rename_file p prefix format w) as [[[|]| |] w1];
      try discriminate; apply IH in H; rewrite length_cons; lia.
Qed.

Lemma copy_loop_counts (l : list Path) (dest : Path) (prefix : str)
    (format : option str) :
  forall u c w u' c' w',
    copy_loop l dest prefix format u c w = (Ok (u', c'), w') ->
    (u' + c' = u + c + Z.of_nat (length l) /\ u <= u' /\ c <= c')%Z.
Proof.
  induction l as [|p l IH]; intros u c w u' c' w' H.
  - inversion H; subst. simpl. lia.
  - cbn [copy_loop] in H. unfold bind in H.
    destruct (copy_file p dest prefix format w) as [[[|]| |] w1];
      try discriminate; apply IH in H; rewrite length_cons; lia.
Qed.

(** C7: whenever a bulk rename of [dir], or a bulk copy from [dir] to
    [dest], returns a triple, the first two counts add up to the third,
    and the third is the number of candidates the scanner lists for [dir]. *)
Theorem bulk_counts_add_up (dir dest : Path) (prefix : str)
    (format : option str) (w w' : world) (done skipped total : Z)
    (Hrun : rename_all_files_in_dir dir prefix format w
              = (Ok (done, skipped, total), w') \/
            copy_all_files_in_dir dir dest prefix format w
              = (Ok (done, skipped, total), w')) :
  exists candidates,
    to_process dir w = (Ok candidates, w) /\
    (done + skipped = total)%Z /\
    total = Z.of_nat (length candidates) /\
    (0 <= done)%Z /\ (0 <= skipped)%Z.
Proof.
  destruct Hrun as [H|H].
  - unfold rename_all_files_in_dir, bind in H.
    pose proof (to_process_world dir w) as Hw.
    destruct (to_process dir w) as [[l| |] w0]; try discriminate.
    simpl in Hw; subst w0.
    destruct (rename_loop l prefix format 0 0 w) as [[[a b]| |] w1] eqn:Hl;
      try discriminate.
    apply rename_loop_counts in Hl. unfold ret in H. simpl in H.
    inversion H; subst. exists l. repeat split; lia.
  - unfold copy_all_files_in_dir, bind in H.
    pose proof (to_process_world dir w) as Hw.
    destruct (to_process dir w) as [[l| |] w0]; try discriminate.
    simpl in Hw; subst w0.
    destruct (copy_loop l dest prefix format 0 0 w) as [[[u c]| |] w1] eqn:Hl;
      try discriminate.
    apply copy_loop_counts in Hl. unfold ret in H. simpl in H.
    inversion H; subst. exists l. repeat split; lia.
Qed.

Lemma bulk_counts_add_up_witness :
  (exists candidates,
     to_process dir_d world_photos = (Ok candidates, world_photos) /\
     (2 + 1 = 3)%Z /\ 3%Z = Z.of_nat (length candidates) /\
     (0 <= 2)%Z /\ (0 <= 1)%Z) /\
  (exists candidates,
     to_process dir_d world_taken = (Ok candidates, world_taken) /\
     (0 + 1 = 1)%Z /\ 1%Z = Z.of_nat (length candidates) /\
     (0 <= 0)%Z /\ (0 <= 1)%Z).
Proof.
  split.
  - apply (bulk_counts_add_up dir_d dir_o (lit "photo") None world_photos
             (snd (rename_all_files_in_dir dir_d (lit "photo") None world_photos))
             2 1 3).
    left. reflexivity.
  - apply (bulk_counts_add_up dir_d dir_o (lit "photo") None world_taken
             world_taken 0 1 1).
    right. reflexivity.
Defined.

(* ================================================================= *)
(** ** Transfer engine: copying never overwrites *)

Lemma copy_to_existing (src dest : Path) (new_name : str) (w : world) :
  exists_ (files w) (joinpath dest new_name) = true ->
  copy_to src dest new_name w = (Ok false, w).
Proof.
  intros H. unfold copy_to, bind, gets. now rewrite H.
Qed.

(** C6: when something exists at the target path, that is the destination
    directory joined with the name [copy_file] computes (the file's own
    name if it is already formatted, the formatted name otherwise),
    [copy_file] returns false and leaves the world as it is, the entry at
    the target path included; a bulk copy counts the file as not copied
    and goes on. *)
Theorem copy_file_never_overwrites (src dest : Path) (prefix : str)
    (format : option str) (target : str) (w : world)
    (Htarget :
       (is_formatted src prefix = true /\ target = name src) \/
       (is_formatted src prefix = false /\
        formatted_filename src prefix format = Ok target /\ target <> []))
    (Hthere : exists_ (files w) (joinpath dest target) = true) :
  copy_file src dest prefix format w = (Ok false, w) /\
  lookup (files (snd (copy_file src dest prefix format w)))
         (joinpath dest target)
  = lookup (files w) (joinpath dest target) /\
  forall rest uncopied copied,
    copy_loop (src :: rest) dest prefix format uncopied copied w
    = copy_loop rest dest prefix format (uncopied + 1) copied w.
Proof.
  assert (H : copy_file src dest prefix format w = (Ok false, w)).
  { unfold copy_file.
    destruct Htarget as [[Hf ->] | [Hf [Hn Hne]]]; rewrite Hf; simpl.
    - now apply copy_to_existing.
    - unfold bind, lift. rewrite Hn.
      destruct (str_eq_dec target []); [congruence|].
      now apply copy_to_existing. }
  split; [exact H|]. split; [now rewrite H|].
  intros rest u c. cbn [copy_loop]. unfold bind. now rewrite H.
Qed.

Lemma copy_file_never_overwrites_witness :
  copy_file (in_d (lit "img7.png")) dir_o (lit "photo") None world_taken
  = (Ok false, world_taken) /\
  lookup (files (snd (copy_file (in_d (lit "img7.png")) dir_o (lit "photo")
                        None world_taken)))
         (joinpath dir_o (lit "photo07.png"))
  = lookup (files world_taken) (joinpath dir_o (lit "photo07.png")) /\
  forall rest uncopied copied,
    copy_loop (in_d (lit "img7.png") :: rest) dir_o (lit "photo") None
      uncopied copied world_taken
    = copy_loop rest dir_o (lit "photo") None (uncopied + 1) copied world_taken.
Proof.
  apply (copy_file_never_overwrites
           (in_d (lit "img7.png")) dir_o (lit "photo") None
           (lit "photo07.png") world_taken).
  - right. repeat split. discriminate.
  - reflexivity.
Defined.

(* ================================================================= *)
(** ** A hint without placeholder *)

Section BadHint.

Variables (h prefix : str).
Hypothesis Hne : h <> [].
Hypothesis Hno : str_index h placeholder = None.

Lemma find_index_bad_hint (f : str) : find_index f (Some h) = error_exit invalid_format_msg.
Proof.
  unfold find_index. destruct h as [|c r]; [congruence|]. now rewrite Hno.
Qed.

Lemma formatted_filename_bad_hint (path : Path) :
  formatted_filename path prefix (Some h) = error_exit invalid_format_msg.
Proof. unfold formatted_filename. now rewrite find_index_bad_hint. Qed.

Lemma rename_file_bad_hint (path : Path) (w : world) :
  is_formatted path prefix = false ->
  rename_file path prefix (Some h) w = (error_exit invalid_format_msg, w).
Proof.
  intros Hf. unfold rename_file, bind, lift.
  now rewrite Hf, formatted_filename_bad_hint.
Qed.

Lemma copy_file_bad_hint (src dest : Path) (w : world) :
  is_formatted src prefix = false ->
  copy_file src dest prefix (Some h) w = (error_exit invalid_format_msg, w).
Proof.
  intros Hf. unfold copy_file, bind, lift. rewrite Hf. simpl.
  now rewrite formatted_filename_bad_hint.
Qed.

Lemma copy_file_formatted_any_hint (src dest : Path) (format : option str)
    (w : world) :
  is_formatted src prefix = true ->
  copy_file src dest prefix (Some h) w = copy_file src dest prefix format w.
Proof. intros Hf. unfold copy_file. now rewrite Hf. Qed.

Lemma rename_loop_bad_hint (l : list Path) :
  forall a b w,
    rename_loop l prefix (Some h) a b w
    = (if forallb (fun p => is_formatted p prefix) l
       then Ok (a, (b + Z.of_nat (length l))%Z)
       else error_exit invalid_format_msg, w).
Proof.
  induction l as [|p l IH]; intros a b w.
  - simpl. unfold ret. now rewrite Z.add_0_r.
  - cbn [rename_loop forallb]. unfold bind.
    destruct (is_formatted p prefix) eqn:Hf.
    + rewrite (rename_file_formatted p prefix Hf). rewrite IH. simpl andb.
      destruct (forallb _ l); [|reflexivity].
      rewrite length_cons. do 3 f_equal. lia.
    + now rewrite rename_file_bad_hint.
Qed.

Lemma copy_loop_bad_hint (dest : Path) (l1 : list Path) :
  forall p l2 u c w,
    forallb (fun q => is_formatted q prefix) l1 = true ->
    is_formatted p prefix = false ->
    copy_loop (l1 ++ p :: l2) dest prefix (Some h) u c w
    = match copy_loop l1 dest prefix None u c w with
      | (Ok _, w') => (error_exit invalid_format_msg, w')
      | (Exit m s, w') => (Exit m s, w')
      | (Raise e, w') => (Raise e, w')
      end.
Proof.
  induction l1 as [|q l1 IH]; intros p l2 u c w Hall Hp.
  - simpl. unfold bind. now rewrite copy_file_bad_hint.
  - simpl in Hall. apply andb_true_iff in Hall as [Hq Hall].
    cbn [app copy_loop]. unfold bind.
    rewrite (copy_file_formatted_any_hint q dest None w Hq).
    destruct (copy_file q dest prefix None w) as [[[|]| |] w1];
      try reflexivity; now apply IH.
Qed.

Lemma rename_all_bad_hint (dir : Path) (w : world) (l : list Path) :
  to_process dir w = (Ok l, w) ->
  rename_all_files_in_dir dir prefix (Some h) w
  = (if forallb (fun p => is_formatted p prefix) l
     then Ok (0%Z, Z.of_nat (length l), Z.of_nat (length l))
     else error_exit invalid_format_msg, w).
Proof.
  intros Hl. unfold rename_all_files_in_dir, bind. rewrite Hl.
  rewrite rename_loop_bad_hint.
  destruct (forallb _ l); reflexivity.
Qed.

Lemma rename_all_bad_hint_world (dir : Path) (w : world) :
  snd (rename_all_files_in_dir dir prefix (Some h) w) = w.
Proof.
  unfold rename_all_files_in_dir, bind.
  pose proof (to_process_world dir w) as Hw.
  destruct (to_process dir w) as [[l| |] w0]; simpl in Hw; subst w0;
    try reflexivity.
  rewrite rename_loop_bad_hint. destruct (forallb _ l); reflexivity.
Qed.

Lemma rename_bad_hint_files (path : Path) (w : world) :
  files (snd (rename path prefix (Some h) w)) = files w.
Proof.
  unfold rename, bind, gets.
  destruct (is_dir (files w) path).
  - pose proof (rename_all_bad_hint_world path w) as Hw.
    destruct (rename_all_files_in_dir path prefix (Some h) w)
      as [[[[r0 r1] r2]| |] w0]; simpl in Hw; subst w0; try reflexivity.
    unfold print. simpl.
    destruct (r0 =? 0)%Z; [reflexivity|].
    destruct (r0 =? r2)%Z; reflexivity.
  - destruct (is_formatted path prefix) eqn:Hf.
    + now rewrite (rename_file_formatted path prefix Hf).
    + now rewrite rename_file_bad_hint.
Qed.

End BadHint.

(** C3, amended: a non-empty hint without ['{}'] is only examined when
    [find_index] is reached, where it exits with status 1.  On a file
    that is not already formatted, [rename_file] and [copy_file] exit
    with status 1 and leave the world as it is.  On a file that is
    already formatted the hint is not looked at: [rename_file] returns
    false and [copy_file] does what it does with no hint.  So a rename
    invocation never changes a file, and a bulk rename exits with status
    1 if some candidate is not already formatted and returns (0, n, n)
    otherwise; a bulk copy first copies the already formatted candidates
    listed before the first one that is not, then exits with status 1. *)
Theorem missing_placeholder_fatal_when_examined (h prefix : str)
    (Hne : h <> []) (Hno : str_index h placeholder = None) :
  (forall f, find_index f (Some h) = Exit invalid_format_msg 1) /\
  (forall path dest w,
     is_formatted path prefix = false ->
     rename_file path prefix (Some h) w = (Exit invalid_format_msg 1, w) /\
     copy_file path dest prefix (Some h) w = (Exit invalid_format_msg 1, w)) /\
  (forall path dest w,
     is_formatted path prefix = true ->
     rename_file path prefix (Some h) w = (Ok false, w) /\
     copy_file path dest prefix (Some h) w = copy_file path dest prefix None w) /\
  (forall path w, files (snd (rename path prefix (Some h) w)) = files w) /\
  (forall dir w candidates,
     to_process dir w = (Ok candidates, w) ->
     rename_all_files_in_dir dir prefix (Some h) w
     = (if forallb (fun p => is_formatted p prefix) candidates
        then Ok (0%Z, Z.of_nat (length candidates),
                 Z.of_nat (length candidates))
        else Exit invalid_format_msg 1, w)) /\
  (forall src dest w before p after,
     to_process src w = (Ok (before ++ p :: after), w) ->
     forallb (fun q => is_formatted q prefix) before = true ->
     is_formatted p prefix = false ->
     copy_all_files_in_dir src dest prefix (Some h) w
     = match copy_loop before dest prefix None 0 0 w with
       | (Ok _, w') => (Exit invalid_format_msg 1, w')
       | (Exit m s, w') => (Exit m s, w')
       | (Raise e, w') => (Raise e, w')
       end).
Proof.
  split; [|split; [|split; [|split; [|split]]]].
  - intros f. now apply find_index_bad_hint.
  - intros path dest w Hf. split.
    + now apply rename_file_bad_hint.
    + now apply copy_file_bad_hint.
  - intros path dest w Hf. split.
    + now apply rename_file_formatted.
    + now apply copy_file_formatted_any_hint.
  - intros path w. now apply rename_bad_hint_files.
  - intros dir w l Hl. now apply rename_all_bad_hint.
  - intros src dest w l1 p l2 Hl Hall Hp.
    unfold copy_all_files_in_dir, bind. rewrite Hl.
    rewrite (copy_loop_bad_hint h prefix Hne Hno dest l1 p l2 0 0 w Hall Hp).
    destruct (copy_loop l1 dest prefix None 0 0 w) as [[x| |] w1]; reflexivity.
Qed.

Lemma missing_placeholder_fatal_when_examined_witness :
  find_index (lit "x2.jpg") (Some (lit "nohint")) = Exit invalid_format_msg 1 /\
  rename_file (in_d (lit "x2.jpg")) (lit "p") (Some (lit "nohint")) world_mixed
  = (Exit invalid_format_msg 1, world_mixed) /\
  rename_file (in_d (lit "p01.jpg")) (lit "p") (Some (lit "nohint")) world_mixed
  = (Ok false, world_mixed) /\
  rename_all_files_in_dir dir_d (lit "p") (Some (lit "nohint"))
    world_formatted_only
  = (Ok (0, 1, 1)%Z, world_formatted_only) /\
  rename_all_files_in_dir dir_d (lit "p") (Some (lit "nohint")) world_mixed
  = (Exit invalid_format_msg 1, world_mixed).
Proof.
  destruct (missing_placeholder_fatal_when_examined
              (lit "nohint") (lit "p") ltac:(discriminate) eq_refl)
    as (Hfind & Hraw & Hdone & _ & Hbulk & _).
  split; [apply Hfind|].
  split; [apply (Hraw (in_d (lit "x2.jpg")) dir_o world_mixed); reflexivity|].
  split; [apply (Hdone (in_d (lit "p01.jpg")) dir_o world_mixed); reflexivity|].
  split.
  - apply (Hbulk dir_d world_formatted_only [in_d (lit "p01.jpg")]).
    reflexivity.
  - apply (Hbulk dir_d world_mixed
             [in_d (lit "p01.jpg"); in_d (lit "x2.jpg")]).
    reflexivity.
Defined.

(** C3 as stated fails twice.  With the hint ["nohint"] and the prefix
    ["p"], renaming a directory whose only candidate [p01.jpg] is already
    formatted does not abort: it runs to its end and prints its summary.
    And copying a directory that lists [p01.jpg] before [x2.jpg] copies
    [p01.jpg] to the destination before it exits with status 1. *)
Lemma missing_placeholder_not_always_fatal :
  str_index (lit "nohint") placeholder = None /\
  rename dir_d (lit "p") (Some (lit "nohint")) world_formatted_only
  = (Ok tt,
     mkWorld (files world_formatted_only)
             (lit "1 files processed. No file renamed." ++ newline)) /\
  fst (copy dir_d dir_o (lit "p") (Some (lit "nohint")) world_mixed)
  = Exit invalid_format_msg 1 /\
  lookup (files world_mixed) (in_o (lit "p01.jpg")) = None /\
  lookup (files (snd (copy dir_d dir_o (lit "p") (Some (lit "nohint"))
                        world_mixed)))
         (in_o (lit "p01.jpg"))
  = Some (File (lit "A")).
Proof. repeat split. Qed.

(* ================================================================= *)
(** ** Renaming twice *)

(** C5 fails on the code at a file without extension and a prefix with a
    dot inside: [x3] under the prefix ["v."] becomes [v.03]; the stem of
    [v.03] is ["v"], which does not begin with ["v."], so the file does
    not count as formatted and the second call renames it again, to
    [v.03.03], and returns true. *)
Theorem rename_file_twice_dotted_prefix :
  rename_file (in_d (lit "x3")) (lit "v.") None world_x3
  = (Ok true,
     mkWorld [(dir_d, Dir); (in_d (lit "v.03"), File (lit "A"))] []) /\
  stem (in_d (lit "v.03")) = lit "v" /\
  is_formatted (in_d (lit "v.03")) (lit "v.") = false /\
  rename_file (in_d (lit "v.03")) (lit "v.") None
    (mkWorld [(dir_d, Dir); (in_d (lit "v.03"), File (lit "A"))] [])
  = (Ok true,
     mkWorld [(dir_d, Dir); (in_d (lit "v.03.03"), File (lit "A"))] []).
Proof. repeat split. Qed.

(** The rest of this section shows that the case above is the only one:
    renaming twice changes nothing the second time as soon as the file
    has an extension or the prefix has no dot past its first character. *)

Lemma rfind_range (s : str) (c : ascii) :
  (rfind s c = -1 \/ 0 <= rfind s c < Z.of_nat (length s))%Z.
Proof.
  induction s as [|x s IH]; [now left|].
  cbn [rfind]. rewrite length_cons, Nat2Z.inj_succ.
  destruct (0 <=? rfind s c)%Z eqn:Hj.
  - apply Z.leb_le in Hj. right. lia.
  - destruct (Ascii.eqb x c); [right; lia | now left].
Qed.

Lemma rfind_app_in (a b : str) (c : ascii) :
  (0 <= rfind b c)%Z ->
  rfind (a ++ b) c = (Z.of_nat (length a) + rfind b c)%Z.
Proof.
  intros H. induction a as [|x a IH]; [simpl; lia|].
  cbn [app rfind]. rewrite IH, length_cons, Nat2Z.inj_succ.
  replace (0 <=? Z.of_nat (length a) + rfind b c)%Z with true
    by (symmetry; apply Z.leb_le; lia).
  lia.
Qed.

Lemma rfind_app_out (a b : str) (c : ascii) :
  rfind b c = (-1)%Z -> rfind (a ++ b) c = rfind a c.
Proof.
  intros H. induction a as [|x a IH]; [simpl; assumption|].
  cbn [app rfind]. now rewrite IH.
Qed.

Lemma rfind_skipn (s : str) (c : ascii) :
  (0 <= rfind s c)%Z ->
  exists r, skipn (Z.to_nat (rfind s c)) s = c :: r /\ rfind r c = (-1)%Z.
Proof.
  induction s as [|x s IH]; [simpl; lia|].
  cbn [rfind]. destruct (0 <=? rfind s c)%Z eqn:Hj.
  - apply Z.leb_le in Hj. intros _.
    destruct (IH Hj) as [r [Hr Hc]]. exists r. split; [|assumption].
    replace (Z.to_nat (rfind s c + 1)) with (S (Z.to_nat (rfind s c))) by lia.
    exact Hr.
  - apply Z.leb_gt in Hj. destruct (Ascii.eqb x c) eqn:Hx; [|lia].
    apply Ascii.eqb_eq in Hx; subst x. intros _. exists s. split; [reflexivity|].
    destruct (rfind_range s c); lia.
Qed.

Lemma rfind_decimal (ds : str) :
  forallb isdecimal ds = true -> rfind ds "."%char = (-1)%Z.
Proof.
  induction ds as [|c ds IH]; [reflexivity|].
  simpl forallb. intros H. apply andb_true_iff in H as [Hc Hds].
  cbn [rfind]. rewrite (IH Hds). simpl.
  destruct (Ascii.eqb c "."%char) eqn:E; [|reflexivity].
  apply Ascii.eqb_eq in E; subst c. discriminate.
Qed.

(** An extension is empty, or a dot followed by at least one character
    and no further dot. *)
Lemma suffix_shape (p : Path) :
  suffix p = [] \/
  exists r, suffix p = "."%char :: r /\ r <> [] /\ rfind r "."%char = (-1)%Z.
Proof.
  unfold suffix.
  destruct ((0 <? rfind (name p) "."%char)
            && (rfind (name p) "."%char <? Z.of_nat (length (name p)) - 1))%Z
    eqn:Hc; [|now left].
  apply andb_true_iff in Hc as [H0 H1].
  apply Z.ltb_lt in H0. apply Z.ltb_lt in H1. right.
  destruct (rfind_skipn (name p) "."%char ltac:(lia)) as [r [Hr Hd]].
  exists r. repeat split; auto.
  intros ->. apply (f_equal (@length ascii)) in Hr.
  rewrite length_skipn in Hr. simpl in Hr. lia.
Qed.

(** The stem of a name made of a prefix, decimal digits and an
    extension, in the two cases where it keeps the whole prefix. *)
Lemma stem_of_target (q path : Path) (prefix dd : str) :
  name q = prefix ++ dd ++ suffix path ->
  dd <> [] -> forallb isdecimal dd = true ->
  suffix path <> [] \/ (rfind prefix "."%char <= 0)%Z ->
  stem q = prefix ++ dd.
Proof.
  intros Hname Hne Hdd Hcase. unfold stem. rewrite Hname.
  destruct (suffix_shape path) as [E | [r [E [Hr Hd]]]]; rewrite E in *.
  - destruct Hcase as [Hcase|Hcase]; [congruence|].
    rewrite app_nil_r. rewrite rfind_app_out by now apply rfind_decimal.
    replace (0 <? rfind prefix "."%char)%Z with false
      by (symmetry; apply Z.ltb_ge; assumption).
    reflexivity.
  - assert (Hdot : rfind ("."%char :: r) "."%char = 0%Z)
      by (cbn [rfind]; rewrite Hd; reflexivity).
    rewrite (app_assoc prefix dd).
    rewrite rfind_app_in by (rewrite Hdot; lia). rewrite Hdot, Z.add_0_r.
    assert (Hlen : (0 < length (prefix ++ dd))%nat)
      by (rewrite length_app; destruct dd; [congruence|simpl; lia]).
    assert (Hr' : (0 < length r)%nat) by (destruct r; [congruence|simpl; lia]).
    replace ((0 <? Z.of_nat (length (prefix ++ dd)))
             && (Z.of_nat (length (prefix ++ dd))
                 <? Z.of_nat (length ((prefix ++ dd) ++ "."%char :: r)) - 1))%Z
      with true.
    + rewrite Nat2Z.id. apply firstn_length_app.
    + symmetry. apply andb_true_iff. split; apply Z.ltb_lt; [lia|].
      rewrite (length_app (prefix ++ dd)), length_cons. lia.
Qed.

Lemma isdigit_not_special c :
  isdigit c = true ->
  int_space c = false /\ Ascii.eqb c "+"%char = false /\
  Ascii.eqb c "-"%char = false.
Proof.
  destruct c as [[] [] [] [] [] [] [] []]; vm_compute; intros H;
    try discriminate H; repeat split.
Qed.

Lemma scan_digits_nonneg (s : str) :
  forall b acc v rest,
    scan_digits b acc s = Some (v, rest) -> (0 <= acc)%Z -> (0 <= v)%Z.
Proof.
  induction s as [|c s IH]; intros b acc v rest H Ha.
  - simpl in H. destruct b; [discriminate|]. inversion H; now subst.
  - cbn [scan_digits] in H. destruct (isdecimal c) eqn:Hc.
    + apply IH in H; [assumption|].
      unfold isdecimal in Hc. apply andb_true_iff in Hc as [H1 _].
      apply Z.leb_le in H1. unfold digit_value. lia.
    + destruct (Ascii.eqb c "_"%char).
      * destruct b; [discriminate|]. now apply IH in H.
      * destruct b; [discriminate|]. inversion H; now subst.
Qed.

Lemma py_int_isdigit_nonneg (s : str) (v : Z) :
  forallb isdigit s = true -> py_int s = Some v -> (0 <= v)%Z.
Proof.
  intros Hs H. destruct s as [|c s]; [discriminate|].
  simpl in Hs. apply andb_true_iff in Hs as [Hc _].
  destruct (isdigit_not_special c Hc) as [Hsp [Hp Hm]].
  unfold py_int in H. rewrite lstrip_head in H by assumption.
  rewrite Hp, Hm in H. cbv beta iota in H.
  destruct (isdecimal c); [|discriminate].
  destruct (scan_digits false 0 (c :: s)) as [[x rest]|] eqn:Hscan;
    [|discriminate].
  destruct (lstrip rest); [|discriminate].
  apply scan_digits_nonneg in Hscan; [|lia].
  injection H as <-. now destruct x.
Qed.

Lemma digit_run_isdigit (s : str) :
  forallb isdigit (firstn (digit_run s) s) = true.
Proof.
  induction s as [|c s IH]; [reflexivity|].
  simpl. destruct (isdigit c) eqn:Hc; [|reflexivity].
  simpl. now rewrite Hc.
Qed.

(** The index is the sentinel or a non-negative integer. *)
Lemma parse_run_range (s : str) : (-1 <= parse_run s)%Z.
Proof.
  unfold parse_run. destruct (length s =? 0)%nat; [lia|].
  destruct (py_int (firstn (digit_run s) s)) as [v|] eqn:H; [|lia].
  apply py_int_isdigit_nonneg in H; [lia|apply digit_run_isdigit].
Qed.

Lemma find_index_range (f : str) (format : option str) (n : Z) :
  find_index f format = Ok n -> (-1 <= n)%Z.
Proof.
  unfold find_index. destruct format as [[|c h]|].
  - intros H; inversion H. apply parse_run_range.
  - destruct (str_index (c :: h) placeholder); [|discriminate].
    intros H; inversion H. apply parse_run_range.
  - intros H; inversion H. apply parse_run_range.
Qed.

Lemma with_name_name (path q : Path) (n : str) :
  with_name path n = Ok q -> name q = n.
Proof.
  unfold with_name. destruct (name path); [discriminate|].
  destruct (_ || _ || _); [discriminate|].
  intros H; inversion H. unfold name. simpl. apply last_last.
Qed.

(** What a successful [rename_file] went through. *)
Lemma rename_file_true_inv (path : Path) (prefix : str)
    (format : option str) (w w' : world) :
  rename_file path prefix format w = (Ok true, w') ->
  is_formatted path prefix = false /\
  exists n new_path,
    find_index (name path) format = Ok n /\ (0 <= n)%Z /\
    with_name path (prefix ++ format_02d n ++ suffix path) = Ok new_path /\
    new_path <> path /\ exists_ (files w) new_path = false /\
    os_rename path new_path w = (Ok tt, w').
Proof.
  unfold rename_file. destruct (is_formatted path prefix); [discriminate|].
  intros H. split; [reflexivity|].
  unfold bind, lift, gets, formatted_filename in H.
  destruct (find_index (name path) format) as [n| |] eqn:Hn; try discriminate.
  pose proof (find_index_range _ _ _ Hn) as Hrange.
  simpl in H. destruct (n =? -1)%Z eqn:Hs; simpl in H; [discriminate|].
  apply Z.eqb_neq in Hs.
  destruct (str_eq_dec (prefix ++ format_02d n ++ suffix path) []);
    [discriminate|].
  destruct (with_name path (prefix ++ format_02d n ++ suffix path))
    as [q| |] eqn:Hq; try discriminate.
  destruct (Path_eq_dec q path) as [|Hneq]; [discriminate|].
  destruct (exists_ (files w) q) eqn:He; [discriminate|]. simpl in H.
  destruct (os_rename path q w) as [[[]| |] w1] eqn:Hr; try discriminate.
  inversion H; subst. exists n, q. repeat split; auto. lia.
Qed.

(** X11: Renaming the renamed file again does nothing, as soon as the file has
    an extension or the prefix has no dot past its first character. *)
Lemma rename_file_idempotent (path : Path) (prefix : str)
    (format : option str) (w w' : world) :
  rename_file path prefix format w = (Ok true, w') ->
  suffix path <> [] \/ (rfind prefix "."%char <= 0)%Z ->
  exists new_name new_path,
    formatted_filename path prefix format = Ok new_name /\
    with_name path new_name = Ok new_path /\
    is_formatted new_path prefix = true /\
    rename_file new_path prefix format w' = (Ok false, w').
Proof.
  intros H Hcase.
  apply rename_file_true_inv in H
    as [_ (n & q & Hn & Hpos & Hq & _ & _ & _)].
  destruct (format_02d_decimal n Hpos) as (Hne & Hdec & Hval).
  assert (Hf : is_formatted q prefix = true).
  { apply (is_formatted_intro q prefix (format_02d n)
             (decimal_value (format_02d n))).
    - apply (stem_of_target q path); auto. now apply with_name_name in Hq.
    - now apply py_int_decimal. }
  exists (prefix ++ format_02d n ++ suffix path), q. repeat split; auto.
  - apply formatted_filename_index; [assumption|lia].
  - now apply rename_file_formatted.
Qed.

(* ================================================================= *)
(** ** Index extractor: further properties *)

Lemma decimal_value_zeros (k : nat) (run : str) :
  decimal_value (repeat "0"%char k ++ run) = decimal_value run.
Proof.
  unfold decimal_value. rewrite fold_left_app. f_equal.
  induction k as [|k IH]; [reflexivity|]. simpl. exact IH.
Qed.

Lemma forallb_decimal_zeros (k : nat) : forallb isdecimal (repeat "0"%char k) = true.
Proof. induction k; simpl; auto. Qed.

Lemma parse_run_first_run (k : nat) (run post : str) :
  run <> [] -> forallb isdecimal run = true ->
  match post with [] => True | c :: _ => isdigit c = false end ->
  parse_run (repeat "0"%char k ++ run ++ post) = decimal_value run.
Proof.
  intros Hne Hrun Hpost. rewrite app_assoc.
  rewrite parse_run_decimal; auto.
  - apply decimal_value_zeros.
  - intros E. apply app_eq_nil in E as [_ E]. congruence.
  - rewrite forallb_app, forallb_decimal_zeros. exact Hrun.
Qed.

(** X3: With no hint, [find_index] returns the value of the first run of
    digits of the filename, whatever comes before it that is no digit and
    however many zeros lead the run. *)
Theorem find_index_first_run (format : option str) (pre run post : str)
    (k : nat)
    (Hfmt : no_hint format = true)
    (Hpre : forallb (fun c => negb (isdigit c)) pre = true)
    (Hne : run <> [])
    (Hrun : forallb isdecimal run = true)
    (Hpost : match post with [] => True | c :: _ => isdigit c = false end) :
  find_index (pre ++ repeat "0"%char k ++ run ++ post) format
  = Ok (decimal_value run).
Proof.
  rewrite find_index_no_hint by assumption.
  rewrite skip_non_digits_app by assumption.
  rewrite skip_non_digits_head.
  - now rewrite parse_run_first_run.
  - destruct k; simpl; [|reflexivity].
    destruct run as [|c run]; [congruence|]. simpl in *.
    apply andb_true_iff in Hrun as [Hc _]. now apply isdecimal_isdigit.
Qed.

Lemma find_index_first_run_witness :
  find_index (lit "Ch. " ++ repeat "0"%char 2 ++ lit "7" ++ lit " - v2.cbz") None
  = Ok (decimal_value (lit "7")).
Proof.
  apply (find_index_first_run None (lit "Ch. ") (lit "7") (lit " - v2.cbz") 2);
    try reflexivity.
  discriminate.
Defined.

(** X4: With the placeholder at offset [k] of the hint, [find_index] returns
    the value of the digit run that starts at offset [k] of the filename,
    numbers before that offset being skipped; a filename of [k]
    characters or fewer gives the sentinel. *)
Theorem find_index_hint_run (f h : str) (k z : nat) (run post : str)
    (Hk : str_index h placeholder = Some k) :
  (skipn k f = repeat "0"%char z ++ run ++ post ->
   run <> [] -> forallb isdecimal run = true ->
   match post with [] => True | c :: _ => isdigit c = false end ->
   find_index f (Some h) = Ok (decimal_value run)) /\
  ((length f <= k)%nat -> find_index f (Some h) = Ok (-1)%Z).
Proof.
  rewrite (find_index_hint f h k Hk). split.
  - intros -> Hne Hrun Hpost. now rewrite parse_run_first_run.
  - intros Hlen. now rewrite skipn_all2.
Qed.

Lemma find_index_hint_run_witness :
  find_index (lit "2024_scan_042.jpg") (Some (lit "yyyy_scan_{}.jpg"))
  = Ok (decimal_value (lit "42")) /\
  find_index (lit "scan") (Some (lit "yyyy_scan_{}.jpg")) = Ok (-1)%Z.
Proof.
  split.
  - apply (proj1 (find_index_hint_run
                    (lit "2024_scan_042.jpg") (lit "yyyy_scan_{}.jpg")
                    10 1 (lit "42") (lit ".jpg") eq_refl));
      try reflexivity.
    discriminate.
  - apply (proj2 (find_index_hint_run
                    (lit "scan") (lit "yyyy_scan_{}.jpg")
                    10 0 [] [] eq_refl)).
    simpl. lia.
Defined.

(** X2: [find_index] never raises: it returns the sentinel or a non-negative
    index, except for the exit with status 1 on a non-empty hint that
    holds no placeholder. *)
Theorem find_index_total (f : str) (format : option str) :
  (exists n, find_index f format = Ok n /\ (-1 <= n)%Z) \/
  (find_index f format = Exit invalid_format_msg 1 /\
   exists h, format = Some h /\ h <> [] /\ str_index h placeholder = None).
Proof.
  destruct (find_index f format) as [n|m c|e] eqn:H.
  - left. exists n. split; [reflexivity|]. now apply find_index_range in H.
  - right. unfold find_index in H.
    destruct format as [[|x h]|]; try discriminate.
    destruct (str_index (x :: h) placeholder) eqn:Hi; [discriminate|].
    unfold error_exit in H. inversion H; subst.
    split; [reflexivity|]. exists (x :: h). repeat split; auto. discriminate.
  - unfold find_index in H.
    destruct format as [[|x h]|]; try discriminate.
    destruct (str_index (x :: h) placeholder); discriminate.
Qed.

Lemma int_literal_has_decimal (s : str) :
  int_literal s -> existsb isdecimal s = true.
Proof.
  intros (l & sg & ds & r & -> & _ & _ & Hg & _).
  destruct (digit_groups_head ds Hg) as (c & t & -> & Hc).
  rewrite !existsb_app. simpl. rewrite Hc.
  now rewrite !orb_true_r.
Qed.

Lemma no_digit_existsb (s : str) :
  forallb (fun c => negb (isdigit c)) s = true -> existsb isdecimal s = false.
Proof.
  induction s as [|c s IH]; [reflexivity|]. simpl.
  intros H. apply andb_true_iff in H as [Hc Hs].
  apply negb_true_iff in Hc. rewrite (IH Hs), orb_false_r.
  destruct (isdecimal c) eqn:E; [|reflexivity].
  apply isdecimal_isdigit in E. congruence.
Qed.

Lemma is_formatted_has_decimal (p : Path) (prefix : str) :
  is_formatted p prefix = true -> existsb isdecimal (name p) = true.
Proof.
  unfold is_formatted.
  destruct (startswith (stem p) prefix) eqn:Hs; [|discriminate].
  apply startswith_inv in Hs as [rest Hs]. rewrite Hs, skipn_length_app.
  destruct (py_int rest) as [n|] eqn:Hn; [intros _|discriminate].
  assert (Hl : int_literal rest) by (apply py_int_accepts_iff; eauto).
  apply int_literal_has_decimal in Hl.
  rewrite name_stem_suffix, Hs, !existsb_app, Hl.
  now rewrite orb_true_r.
Qed.

Lemma parse_run_no_digit (s : str) :
  forallb (fun c => negb (isdigit c)) s = true ->
  parse_run (skip_non_digits s) = (-1)%Z.
Proof.
  intros H. rewrite <- (app_nil_r s), skip_non_digits_app by assumption.
  reflexivity.
Qed.

(** X5: A file whose name holds no digit is left alone when there is no hint:
    no index is found, no name is made, and [rename_file] and [copy_file]
    return false without touching anything. *)
Theorem no_digit_no_transfer (p dest : Path) (prefix : str)
    (format : option str) (w : world)
    (Hname : forallb (fun c => negb (isdigit c)) (name p) = true)
    (Hfmt : no_hint format = true) :
  find_index (name p) format = Ok (-1)%Z /\
  formatted_filename p prefix format = Ok [] /\
  rename_file p prefix format w = (Ok false, w) /\
  copy_file p dest prefix format w = (Ok false, w).
Proof.
  assert (Hidx : find_index (name p) format = Ok (-1)%Z)
    by (rewrite find_index_no_hint by assumption; now rewrite parse_run_no_digit).
  assert (Hff : formatted_filename p prefix format = Ok [])
    by (unfold formatted_filename; now rewrite Hidx).
  assert (Hf : is_formatted p prefix = false).
  { destruct (is_formatted p prefix) eqn:E; [|reflexivity].
    apply is_formatted_has_decimal in E.
    now rewrite (no_digit_existsb _ Hname) in E. }
  repeat split; auto.
  - unfold rename_file, bind, lift. now rewrite Hf, Hff.
  - unfold copy_file, bind, lift. rewrite Hf. simpl. now rewrite Hff.
Qed.

Lemma no_digit_no_transfer_witness :
  find_index (lit "notes.txt") None = Ok (-1)%Z /\
  formatted_filename (in_d (lit "notes.txt")) (lit "photo") None = Ok [] /\
  rename_file (in_d (lit "notes.txt")) (lit "photo") None world_photos
  = (Ok false, world_photos) /\
  copy_file (in_d (lit "notes.txt")) dir_o (lit "photo") None world_photos
  = (Ok false, world_photos).
Proof.
  apply (no_digit_no_transfer (in_d (lit "notes.txt")) dir_o (lit "photo")
           None world_photos); reflexivity.
Defined.

(** X6: The name [formatted_filename] makes gives the index back: searched
    with no hint, a target name whose prefix holds no digit yields the
    index it was made from. *)
Theorem formatted_filename_round_trip (path : Path) (prefix : str)
    (format : option str) (n : Z)
    (Hidx : find_index (name path) format = Ok n)
    (Hn : n <> (-1)%Z)
    (Hprefix : forallb (fun c => negb (isdigit c)) prefix = true) :
  exists target,
    formatted_filename path prefix format = Ok target /\
    find_index target None = Ok n /\
    py_int (format_02d n) = Some n.
Proof.
  pose proof (find_index_range _ _ _ Hidx) as Hrange.
  assert (Hpos : (0 <= n)%Z) by lia.
  destruct (format_02d_decimal n Hpos) as (Hne & Hdec & Hval).
  exists (prefix ++ format_02d n ++ suffix path). repeat split.
  - now apply formatted_filename_index.
  - rewrite <- Hval at 2. rewrite find_index_no_hint by reflexivity.
    rewrite skip_non_digits_app by assumption.
    assert (Hpost : match suffix path with
                    | [] => True | c :: _ => isdigit c = false end)
      by (destruct (suffix_shape path) as [-> | [r [-> _]]];
          [exact I|reflexivity]).
    rewrite skip_non_digits_head.
    + now rewrite parse_run_decimal.
    + destruct (format_02d n) as [|c r]; [congruence|]. simpl in *.
      apply andb_true_iff in Hdec as [Hc _]. now apply isdecimal_isdigit.
  - rewrite py_int_decimal by assumption. now rewrite Hval.
Qed.

Lemma formatted_filename_round_trip_witness :
  exists target,
    formatted_filename (in_d (lit "img003.png")) (lit "photo") None = Ok target /\
    find_index target None = Ok 3%Z /\
    py_int (format_02d 3) = Some 3%Z.
Proof.
  apply (formatted_filename_round_trip
           (in_d (lit "img003.png")) (lit "photo") None 3 eq_refl).
  - discriminate.
  - reflexivity.
Defined.

(* ================================================================= *)
(** ** Directory scanner *)

Lemma to_process_members (fs : FS) (dir p : Path) :
  In p (filter (fun f => negb (is_dir fs f || startswith (name f) (lit ".")))
          (map fst (filter (fun e => is_child dir (fst e)) fs))) <->
  In p (map fst fs) /\
  parts p <> [] /\ parent p = dir /\
  is_dir fs p = false /\ startswith (name p) (lit ".") = false.
Proof.
  rewrite filter_In, in_map_iff. split.
  - intros [[[q n] [Hq Hin]] Hf]. simpl in Hq. subst q.
    apply filter_In in Hin as [Hin Hc]. simpl in Hc.
    apply negb_true_iff, orb_false_iff in Hf as [Hf1 Hf2].
    unfold is_child in Hc. destruct (parts p) eqn:Hp; [discriminate|].
    destruct (Path_eq_dec (parent p) dir); [|discriminate].
    repeat split; auto; try discriminate.
    apply in_map_iff. now exists (p, n).
  - intros (Hin & Hp & Hpar & Hf1 & Hf2).
    apply in_map_iff in Hin as [[q n] [Hq Hin]]. simpl in Hq. subst q.
    split.
    + exists (p, n). split; [reflexivity|]. apply filter_In. split; auto.
      simpl. unfold is_child. destruct (parts p); [congruence|].
      destruct (Path_eq_dec (parent p) dir); congruence.
    + now rewrite Hf1, Hf2.
Qed.

Lemma to_process_ok (dir : Path) (w : world) :
  is_dir (files w) dir = true ->
  to_process dir w
  = (Ok (filter (fun f => negb (is_dir (files w) f
                               || startswith (name f) (lit ".")))
           (map fst (filter (fun e => is_child dir (fst e)) (files w)))), w).
Proof. intros Hd. unfold to_process, iterdir. now rewrite Hd. Qed.

(** X1: [to_process] lists exactly the entries directly inside [dir] that are
    no directory and whose name does not begin with a dot; it raises when
    [dir] is no directory. *)
Theorem to_process_spec (dir : Path) (w : world) :
  (is_dir (files w) dir = true ->
   exists l,
     to_process dir w = (Ok l, w) /\
     forall p, In p l <->
       In p (map fst (files w)) /\
       parts p <> [] /\ parent p = dir /\
       is_dir (files w) p = false /\
       startswith (name p) (lit ".") = false) /\
  (is_dir (files w) dir = false ->
   exists e, to_process dir w = (Raise e, w)).
Proof.
  split; intros Hd.
  - eexists. split; [now apply to_process_ok|].
    intros p. apply to_process_members.
  - unfold to_process, iterdir. rewrite Hd.
    destruct (exists_ (files w) dir); eexists; reflexivity.
Qed.

(* ================================================================= *)
(** ** Transfer engine: what a call changes *)

Lemma lookup_put_same (fs : FS) (p : Path) (n : node) :
  lookup (put fs p n) p = Some n.
Proof.
  induction fs as [|[q m] fs IH]; simpl.
  - destruct (Path_eq_dec p p); congruence.
  - destruct (Path_eq_dec q p) as [->|Hq]; simpl.
    + destruct (Path_eq_dec p p); congruence.
    + destruct (Path_eq_dec q p); congruence.
Qed.

Lemma lookup_put_other (fs : FS) (p q : Path) (n : node) :
  q <> p -> lookup (put fs p n) q = lookup fs q.
Proof.
  intros Hq. induction fs as [|[k m] fs IH]; simpl.
  - destruct (Path_eq_dec p q); congruence.
  - destruct (Path_eq_dec k p) as [->|Hk]; simpl.
    + destruct (Path_eq_dec p q); congruence.
    + destruct (Path_eq_dec k q); congruence.
Qed.

Lemma exists_false_inv (fs : FS) (p : Path) :
  exists_ fs p = false -> parts p <> [] /\ lookup fs p = None.
Proof.
  unfold exists_. destruct (parts p); [discriminate|].
  destruct (lookup fs p); [discriminate|]. split; [discriminate|reflexivity].
Qed.

(** What a successful [copy_to] went through. *)
Lemma copy_to_true_inv (src dest : Path) (new_name : str) (w w' : world) :
  copy_to src dest new_name w = (Ok true, w') ->
  exists data,
    lookup (files w) src = Some (File data) /\
    lookup (files w) (joinpath dest new_name) = None /\
    w' = set_files w (put (files w) (joinpath dest new_name) (File data)).
Proof.
  unfold copy_to, bind, gets.
  destruct (exists_ (files w) (joinpath dest new_name)) eqn:He;
    [discriminate|]. simpl.
  apply exists_false_inv in He as [Hp Hl].
  unfold shutil_copy. destruct (parts (joinpath dest new_name)); [congruence|].
  rewrite Hl.
  destruct (lookup (files w) src) as [[data|]|]; try discriminate.
  destruct (Path_eq_dec src (joinpath dest new_name)); [discriminate|].
  destruct (is_dir (files w) (parent (joinpath dest new_name)));
    [|discriminate].
  intros H; inversion H. now exists data.
Qed.

Lemma copy_to_other (src dest : Path) (new_name : str) (w : world) :
  fst (copy_to src dest new_name w) = Ok true \/
  snd (copy_to src dest new_name w) = w.
Proof.
  unfold copy_to, bind, gets.
  destruct (exists_ (files w) (joinpath dest new_name)); [now right|]. simpl.
  unfold shutil_copy.
  destruct (match parts (joinpath dest new_name) with
            | [] => _ | _ :: _ => _ end) as [a ps].
  destruct (lookup (files w) src) as [[data|]|]; try now right.
  destruct (Path_eq_dec src _); [now right|].
  destruct (is_dir (files w) _); [now left|now right].
Qed.

(** X9: A successful [copy_file] has written the source's data at the target
    path, which was free, and has changed nothing else: every other
    path, the source included, holds what it held, and nothing is
    printed. *)
Theorem copy_file_copies (src dest : Path) (prefix : str)
    (format : option str) (w w' : world)
    (Hrun : copy_file src dest prefix format w = (Ok true, w')) :
  exists target data,
    (if is_formatted src prefix then target = name src
     else formatted_filename src prefix format = Ok target /\ target <> []) /\
    lookup (files w) src = Some (File data) /\
    lookup (files w) (joinpath dest target) = None /\
    lookup (files w') (joinpath dest target) = Some (File data) /\
    (forall q, q <> joinpath dest target ->
               lookup (files w') q = lookup (files w) q) /\
    stdout w' = stdout w.
Proof.
  unfold copy_file in Hrun.
  assert (G : forall target,
    copy_to src dest target w = (Ok true, w') ->
    exists data,
      lookup (files w) src = Some (File data) /\
      lookup (files w) (joinpath dest target) = None /\
      lookup (files w') (joinpath dest target) = Some (File data) /\
      (forall q, q <> joinpath dest target ->
                 lookup (files w') q = lookup (files w) q) /\
      stdout w' = stdout w).
  { intros target H. apply copy_to_true_inv in H as (data & Hs & Hd & ->).
    exists data. simpl. repeat split; auto.
    - apply lookup_put_same.
    - intros q Hq. now apply lookup_put_other. }
  destruct (is_formatted src prefix); simpl in Hrun.
  - destruct (G _ Hrun) as (data & H). exists (name src), data. now split.
  - unfold bind, lift in Hrun.
    destruct (formatted_filename src prefix format) as [target| |] eqn:Hf;
      try discriminate.
    destruct (str_eq_dec target []); [discriminate|].
    destruct (G _ Hrun) as (data & H). exists target, data. now split.
Qed.

Lemma copy_file_copies_witness :
  exists target data,
    (if is_formatted (in_d (lit "img7.png")) (lit "photo") then
       target = name (in_d (lit "img7.png"))
     else formatted_filename (in_d (lit "img7.png")) (lit "photo") None
          = Ok target /\ target <> []) /\
    lookup (files world_photos) (in_d (lit "img7.png")) = Some (File data) /\
    lookup (files world_photos) (joinpath dir_o target) = None /\
    lookup (files (snd (copy_file (in_d (lit "img7.png")) dir_o (lit "photo")
                          None world_photos)))
           (joinpath dir_o target) = Some (File data) /\
    (forall q, q <> joinpath dir_o target ->
       lookup (files (snd (copy_file (in_d (lit "img7.png")) dir_o
                             (lit "photo") None world_photos))) q
       = lookup (files world_photos) q) /\
    stdout (snd (copy_file (in_d (lit "img7.png")) dir_o (lit "photo")
                   None world_photos))
    = stdout world_photos.
Proof.
  apply (copy_file_copies (in_d (lit "img7.png")) dir_o (lit "photo") None
           world_photos). reflexivity.
Defined.

Lemma copy_file_other (src dest : Path) (prefix : str) (format : option str)
    (w : world) :
  fst (copy_file src dest prefix format w) = Ok true \/
  snd (copy_file src dest prefix format w) = w.
Proof.
  unfold copy_file. destruct (is_formatted src prefix); simpl.
  - apply copy_to_other.
  - unfold bind, lift.
    destruct (formatted_filename src prefix format) as [target| |];
      try now right.
    destruct (str_eq_dec target []); [now right|]. apply copy_to_other.
Qed.

Lemma copy_to_keeps (src dest : Path) (new_name : str) (w : world)
    (q : Path) (n : node) :
  lookup (files w) q = Some n ->
  lookup (files (snd (copy_to src dest new_name w))) q = Some n.
Proof.
  intros Hq.
  destruct (copy_to src dest new_name w) as [o w'] eqn:H.
  destruct (copy_to_other src dest new_name w) as [Ht|Hu];
    rewrite H in *; simpl in *; [|now subst].
  subst o. apply copy_to_true_inv in H as (data & _ & Hfree & ->).
  simpl. rewrite lookup_put_other; [assumption|]. intros ->. congruence.
Qed.

Lemma copy_file_keeps (src dest : Path) (prefix : str) (format : option str)
    (w : world) (q : Path) (n : node) :
  lookup (files w) q = Some n ->
  lookup (files (snd (copy_file src dest prefix format w))) q = Some n.
Proof.
  intros Hq. unfold copy_file. destruct (is_formatted src prefix); simpl.
  - now apply copy_to_keeps.
  - unfold bind, lift.
    destruct (formatted_filename src prefix format) as [target| |]; auto.
    destruct (str_eq_dec target []); [exact Hq|]. now apply copy_to_keeps.
Qed.

Lemma copy_loop_keeps (l : list Path) (dest : Path) (prefix : str)
    (format : option str) (q : Path) (n : node) :
  forall u c w,
    lookup (files w) q = Some n ->
    lookup (files (snd (copy_loop l dest prefix format u c w))) q = Some n.
Proof.
  induction l as [|p l IH]; intros u c w Hq; [exact Hq|].
  cbn [copy_loop]. unfold bind.
  pose proof (copy_file_keeps p dest prefix format w q n Hq) as Hk.
  destruct (copy_file p dest prefix format w) as [[[|]| |] w1];
    simpl in Hk; auto.
Qed.

(** X10: Copying never removes or alters what is there: whatever a copy
    invocation does, on a file or on a directory, and however it ends,
    every path that held something holds the same thing afterwards. *)
Theorem copy_keeps_existing (file src dest : Path) (prefix : str)
    (format : option str) (w : world) (q : Path) (n : node)
    (Hq : lookup (files w) q = Some n) :
  lookup (files (snd (copy_file file dest prefix format w))) q = Some n /\
  lookup (files (snd (copy_all_files_in_dir src dest prefix format w))) q
  = Some n /\
  lookup (files (snd (copy src dest prefix format w))) q = Some n.
Proof.
  assert (Hall :
    lookup (files (snd (copy_all_files_in_dir src dest prefix format w))) q
    = Some n).
  { unfold copy_all_files_in_dir, bind.
    pose proof (to_process_world src w) as Hw.
    destruct (to_process src w) as [[l| |] w0]; simpl in Hw; subst w0; auto.
    pose proof (copy_loop_keeps l dest prefix format q n 0 0 w Hq) as Hk.
    destruct (copy_loop l dest prefix format 0 0 w) as [[x| |] w1]; auto. }
  split; [now apply copy_file_keeps|]. split; [exact Hall|].
  unfold copy, bind, gets. destruct (is_dir (files w) src).
  - destruct (copy_all_files_in_dir src dest prefix format w)
      as [[[[r0 r1] r2]| |] w1]; simpl in Hall; auto.
    unfold print. simpl.
    destruct (r0 =? 0)%Z; [exact Hall|]. destruct (r0 =? r2)%Z; exact Hall.
  - pose proof (copy_file_keeps src dest prefix format w q n Hq) as Hk.
    destruct (copy_file src dest prefix format w) as [[[|]| |] w1];
      simpl in Hk; auto.
Qed.

Lemma copy_keeps_existing_witness :
  lookup (files (snd (copy_file (in_d (lit "img7.png")) dir_o (lit "photo")
                        None world_taken)))
         (in_o (lit "photo07.png")) = Some (File (lit "old")) /\
  lookup (files (snd (copy_all_files_in_dir dir_d dir_o (lit "photo") None
                        world_taken)))
         (in_o (lit "photo07.png")) = Some (File (lit "old")) /\
  lookup (files (snd (copy dir_d dir_o (lit "photo") None world_taken)))
         (in_o (lit "photo07.png")) = Some (File (lit "old")).
Proof.
  apply (copy_keeps_existing (in_d (lit "img7.png")) dir_d dir_o (lit "photo")
           None world_taken
           (in_o (lit "photo07.png")) (File (lit "old"))).
  reflexivity.
Defined.

Lemma strip_parts_some (pre l rest : list str) :
  strip_parts pre l = Some rest <-> l = pre ++ rest.
Proof.
  revert l. induction pre as [|a pre IH]; intros l; simpl.
  - split; [intros H; now inversion H | now intros ->].
  - destruct l as [|b l]; [split; discriminate|].
    destruct (str_eq_dec a b) as [->|Hab].
    + rewrite IH. split; [now intros -> | intros H; now inversion H].
    + split; [discriminate | intros H; inversion H; congruence].
Qed.

Lemma below_spec (src p : Path) :
  below src p = true <->
  anchor p = anchor src /\ exists rest, parts p = parts src ++ rest.
Proof.
  unfold below. destruct (str_eq_dec (anchor p) (anchor src)) as [Ha|Ha].
  - destruct (strip_parts (parts src) (parts p)) as [rest|] eqn:Hs.
    + apply strip_parts_some in Hs. split; eauto.
    + split; [discriminate|]. intros [_ [rest Hr]].
      apply strip_parts_some in Hr. congruence.
  - split; [discriminate | intros [H _]; congruence].
Qed.

Lemma below_refl (p : Path) : below p p = true.
Proof. apply below_spec. split; [reflexivity|]. exists []. now rewrite app_nil_r. Qed.

Lemma rebase_below (src dst p : Path) :
  below src p = true ->
  exists rest,
    parts p = parts src ++ rest /\
    rebase src dst p = mkPath (anchor dst) (parts dst ++ rest).
Proof.
  unfold below, rebase.
  destruct (str_eq_dec (anchor p) (anchor src)); [|discriminate].
  destruct (strip_parts (parts src) (parts p)) as [rest|] eqn:Hs;
    [|discriminate].
  intros _. exists rest. split; [now apply strip_parts_some|reflexivity].
Qed.

Lemma rebase_not_below (src dst p : Path) :
  below src p = false -> rebase src dst p = p.
Proof.
  unfold below, rebase.
  destruct (str_eq_dec (anchor p) (anchor src)); [|reflexivity].
  destruct (strip_parts (parts src) (parts p)); [discriminate|reflexivity].
Qed.

Lemma rebase_lands_below (src dst p : Path) :
  below src p = true -> below dst (rebase src dst p) = true.
Proof.
  intros H. destruct (rebase_below src dst p H) as [rest [_ ->]].
  apply below_spec. simpl. split; [reflexivity|now exists rest].
Qed.

Lemma rebase_onto_target (src dst p : Path) :
  p <> dst -> rebase src dst p = dst -> p = src.
Proof.
  intros Hp Hr. destruct (below src p) eqn:Hb.
  - pose proof Hb as Hb'. apply below_spec in Hb' as [Ha _].
    destruct (rebase_below src dst p Hb) as [rest [Hparts Hreb]].
    rewrite Hreb in Hr. destruct dst as [da dp]. simpl in Hr.
    inversion Hr as [Hrest].
    rewrite <- (app_nil_r dp) in Hrest at 2.
    apply app_inv_head in Hrest. subst rest.
    rewrite app_nil_r in Hparts.
    destruct p as [pa pp], src as [sa sp]. simpl in *. congruence.
  - rewrite rebase_not_below in Hr by assumption. congruence.
Qed.

Lemma remove_key_absent (fs : FS) (p : Path) :
  lookup fs p = None -> remove_key fs p = fs.
Proof.
  induction fs as [|[k n] fs IH]; [reflexivity|]. simpl.
  destruct (Path_eq_dec k p); [discriminate|]. intros H. now rewrite IH.
Qed.

Lemma lookup_rebase_target (fs : FS) (src dst : Path) :
  lookup fs dst = None ->
  lookup (map (fun e => (rebase src dst (fst e), snd e)) fs) dst
  = lookup fs src.
Proof.
  induction fs as [|[k n] fs IH]; [reflexivity|]. simpl.
  destruct (Path_eq_dec k dst) as [|Hk]; [discriminate|]. intros Hd.
  destruct (Path_eq_dec k src) as [->|Hs].
  - destruct (Path_eq_dec (rebase src dst src) dst) as [|Hne]; [reflexivity|].
    exfalso. apply Hne.
    destruct (rebase_below src dst src (below_refl src)) as [rest [Hp ->]].
    rewrite <- (app_nil_r (parts src)) in Hp at 1.
    apply app_inv_head in Hp. subst rest. rewrite app_nil_r.
    now destruct dst.
  - destruct (Path_eq_dec (rebase src dst k) dst) as [Hr|_]; [|now apply IH].
    exfalso. apply Hs. now apply (rebase_onto_target src dst).
Qed.

Lemma lookup_rebase_source (fs : FS) (src dst : Path) :
  below dst src = false ->
  lookup (map (fun e => (rebase src dst (fst e), snd e)) fs) src = None.
Proof.
  intros Hb. induction fs as [|[k n] fs IH]; [reflexivity|]. simpl.
  destruct (Path_eq_dec (rebase src dst k) src) as [Hr|_]; [|exact IH].
  exfalso. destruct (below src k) eqn:Hk.
  - apply (rebase_lands_below src dst) in Hk. rewrite Hr in Hk. congruence.
  - rewrite rebase_not_below in Hr by assumption. subst k.
    rewrite below_refl in Hk. discriminate.
Qed.

Lemma lookup_rebase_other (fs : FS) (src dst q : Path) :
  below src q = false -> below dst q = false ->
  lookup (map (fun e => (rebase src dst (fst e), snd e)) fs) q = lookup fs q.
Proof.
  intros Hs Hd. induction fs as [|[k n] fs IH]; [reflexivity|]. simpl.
  destruct (below src k) eqn:Hk.
  - destruct (Path_eq_dec (rebase src dst k) q) as [Hr|_].
    + apply (rebase_lands_below src dst) in Hk. rewrite Hr in Hk. congruence.
    + destruct (Path_eq_dec k q) as [->|_]; [congruence|exact IH].
  - rewrite rebase_not_below by assumption.
    destruct (Path_eq_dec k q); [reflexivity|exact IH].
Qed.

Lemma with_name_shape (path q : Path) (n : str) :
  with_name path n = Ok q ->
  anchor q = anchor path /\
  parts q = removelast (parts path) ++ [n] /\
  parts path <> [] /\ has_sep n = false /\ n <> [].
Proof.
  unfold with_name, name.
  destruct (parts path) as [|c l] eqn:Hp; [discriminate|].
  destruct (last (c :: l) []) eqn:Hl; [discriminate|].
  destruct (_ || _ || _) eqn:Hc; [discriminate|].
  apply orb_false_iff in Hc as [Hc _].
  apply orb_false_iff in Hc as [Hempty Hsep].
  intros H; inversion H. simpl. repeat split; auto; try discriminate.
  intros ->. discriminate.
Qed.

Lemma sibling_not_below (path q : Path) (n : str) :
  with_name path n = Ok q -> q <> path -> below q path = false.
Proof.
  intros Hw Hne. destruct (below q path) eqn:Hb; [|reflexivity].
  exfalso. apply Hne.
  apply with_name_shape in Hw as (Ha & Hq & Hp & _).
  apply below_spec in Hb as [_ [rest Hr]].
  assert (Hlen : length (parts q) = length (parts path)).
  { rewrite Hq, length_app. simpl.
    destruct (parts path) as [|c l]; [congruence|].
    pose proof (@app_removelast_last _ (c :: l) [] ltac:(discriminate)) as E.
    apply (f_equal (@length str)) in E. rewrite length_app in E.
    simpl in *. lia. }
  apply (f_equal (@length str)) in Hr as Hr'. rewrite length_app in Hr'.
  destruct rest; [|simpl in Hr'; lia].
  rewrite app_nil_r in Hr. destruct q, path. simpl in *. congruence.
Qed.

Lemma os_rename_effect (src dst : Path) (w w' : world) :
  os_rename src dst w = (Ok tt, w') ->
  lookup (files w) dst = None -> below dst src = false ->
  exists entry,
    lookup (files w) src = Some entry /\
    lookup (files w') dst = Some entry /\
    lookup (files w') src = None /\
    (forall q, below src q = false -> below dst q = false ->
               lookup (files w') q = lookup (files w) q) /\
    stdout w' = stdout w.
Proof.
  intros Hmove Hfree Hb. unfold os_rename in Hmove.
  destruct (lookup (files w) src) as [entry|] eqn:Hsrc; [|discriminate].
  inversion Hmove; subst w'. clear Hmove.
  rewrite remove_key_absent by assumption.
  exists entry. simpl. repeat split; auto.
  - rewrite lookup_rebase_target by assumption. exact Hsrc.
  - now apply lookup_rebase_source.
  - intros x Hx1 Hx2. now apply lookup_rebase_other.
Qed.

(** X7: A successful [rename_file] has moved the entry to the target name:
    the target path, which was free, holds what the file's path held, the
    file's path holds nothing, every path that is neither of the two nor
    below them holds what it held, and nothing is printed. *)
Theorem rename_file_moves (path : Path) (prefix : str)
    (format : option str) (w w' : world)
    (Hrun : rename_file path prefix format w = (Ok true, w')) :
  exists new_name new_path entry,
    formatted_filename path prefix format = Ok new_name /\
    with_name path new_name = Ok new_path /\
    lookup (files w) path = Some entry /\
    lookup (files w) new_path = None /\
    lookup (files w') new_path = Some entry /\
    lookup (files w') path = None /\
    (forall q, below path q = false -> below new_path q = false ->
               lookup (files w') q = lookup (files w) q) /\
    stdout w' = stdout w.
Proof.
  apply rename_file_true_inv in Hrun
    as [_ (n & q & Hn & Hpos & Hq & Hne & Hfree & Hmove)].
  apply exists_false_inv in Hfree as [_ Hfree].
  pose proof (sibling_not_below path q _ Hq Hne) as Hb.
  destruct (os_rename_effect path q w w' Hmove Hfree Hb)
    as (entry & Hsrc & Hdst & Hgone & Hrest & Hout).
  exists (prefix ++ format_02d n ++ suffix path), q, entry.
  repeat split; auto.
  apply formatted_filename_index; [assumption|lia].
Qed.

Lemma rename_file_moves_witness :
  exists new_name new_path entry,
    formatted_filename (in_d (lit "img7.png")) (lit "photo") None = Ok new_name /\
    with_name (in_d (lit "img7.png")) new_name = Ok new_path /\
    lookup (files world_photos) (in_d (lit "img7.png")) = Some entry /\
    lookup (files world_photos) new_path = None /\
    lookup (files (snd (rename_file (in_d (lit "img7.png")) (lit "photo") None
                          world_photos))) new_path = Some entry /\
    lookup (files (snd (rename_file (in_d (lit "img7.png")) (lit "photo") None
                          world_photos))) (in_d (lit "img7.png")) = None /\
    (forall q, below (in_d (lit "img7.png")) q = false ->
               below new_path q = false ->
       lookup (files (snd (rename_file (in_d (lit "img7.png")) (lit "photo")
                             None world_photos))) q
       = lookup (files world_photos) q) /\
    stdout (snd (rename_file (in_d (lit "img7.png")) (lit "photo") None
                   world_photos))
    = stdout world_photos.
Proof.
  apply (rename_file_moves (in_d (lit "img7.png")) (lit "photo") None
           world_photos). reflexivity.
Defined.

Lemma rename_file_other (path : Path) (prefix : str) (format : option str)
    (w : world) :
  fst (rename_file path prefix format w) = Ok true \/
  snd (rename_file path prefix format w) = w.
Proof.
  unfold rename_file. destruct (is_formatted path prefix); [now right|].
  unfold bind, lift, gets.
  destruct (formatted_filename path prefix format) as [n| |]; try now right.
  destruct (str_eq_dec n []); [now right|].
  destruct (with_name path n) as [q| |]; try now right.
  destruct (negb _ && negb _); [|now right].
  unfold os_rename. destruct (lookup (files w) path); [now left|now right].
Qed.


Lemma rename_loop_none (l : list Path) (prefix : str) (format : option str) :
  forall a b w b' w',
    rename_loop l prefix format a b w = (Ok (a, b'), w') -> w' = w.
Proof.
  induction l as [|p l IH]; intros a b w b' w' H.
  - now inversion H.
  - cbn [rename_loop] in H. unfold bind in H.
    pose proof (rename_file_other p prefix format w) as Ho.
    destruct (rename_file p prefix format w) as [[[|]| |] w1];
      try discriminate.
    + apply rename_loop_counts in H. lia.
    + destruct Ho as [Ho|Ho]; simpl in Ho; [discriminate|]. subst w1.
      now apply IH in H.
Qed.

Lemma copy_loop_none (l : list Path) (dest : Path) (prefix : str)
    (format : option str) :
  forall u c w u' w',
    copy_loop l dest prefix format u c w = (Ok (u', c), w') -> w' = w.
Proof.
  induction l as [|p l IH]; intros u c w u' w' H.
  - now inversion H.
  - cbn [copy_loop] in H. unfold bind in H.
    pose proof (copy_file_other p dest prefix format w) as Ho.
    destruct (copy_file p dest prefix format w) as [[[|]| |] w1];
      try discriminate.
    + apply copy_loop_counts in H. lia.
    + destruct Ho as [Ho|Ho]; simpl in Ho; [discriminate|]. subst w1.
      now apply IH in H.
Qed.

(** X13: A bulk rename or a bulk copy that reports no success has changed
    nothing: the world it returns is the one it started from. *)
Theorem zero_successes_no_change (dir dest : Path) (prefix : str)
    (format : option str) (w w' : world) (skipped total : Z)
    (Hrun : rename_all_files_in_dir dir prefix format w
              = (Ok (0%Z, skipped, total), w') \/
            copy_all_files_in_dir dir dest prefix format w
              = (Ok (0%Z, skipped, total), w')) :
  w' = w.
Proof.
  destruct Hrun as [H|H].
  - unfold rename_all_files_in_dir, bind in H.
    pose proof (to_process_world dir w) as Hw.
    destruct (to_process dir w) as [[l| |] w0]; try discriminate.
    simpl in Hw; subst w0.
    destruct (rename_loop l prefix format 0 0 w) as [[[a b]| |] w1] eqn:Hl;
      try discriminate.
    unfold ret in H. simpl in H. inversion H; subst.
    now apply rename_loop_none in Hl.
  - unfold copy_all_files_in_dir, bind in H.
    pose proof (to_process_world dir w) as Hw.
    destruct (to_process dir w) as [[l| |] w0]; try discriminate.
    simpl in Hw; subst w0.
    destruct (copy_loop l dest prefix format 0 0 w) as [[[u c]| |] w1] eqn:Hl;
      try discriminate.
    unfold ret in H. simpl in H. inversion H; subst.
    now apply copy_loop_none in Hl.
Qed.

Lemma zero_successes_no_change_witness :
  snd (copy_all_files_in_dir dir_d dir_o (lit "photo") None world_taken)
  = world_taken.
Proof.
  apply (zero_successes_no_change dir_d dir_o (lit "photo") None world_taken
           _ 1 1).
  right. reflexivity.
Defined.

Lemma rename_file_idempotent_witness :
  exists new_name new_path,
    formatted_filename (in_d (lit "img7.png")) (lit "photo") None = Ok new_name /\
    with_name (in_d (lit "img7.png")) new_name = Ok new_path /\
    is_formatted new_path (lit "photo") = true /\
    rename_file new_path (lit "photo") None
      (snd (rename_file (in_d (lit "img7.png")) (lit "photo") None world_photos))
    = (Ok false,
       snd (rename_file (in_d (lit "img7.png")) (lit "photo") None world_photos)).
Proof.
  apply (rename_file_idempotent (in_d (lit "img7.png")) (lit "photo") None
           world_photos).
  - reflexivity.
  - left. discriminate.
Defined.

(* ================================================================= *)
(** ** Transfer engine: renaming never overwrites, and keeps the extension *)

(** X8: When the target path, the file's path with the formatted name in
    place of its name, is the file's own path or holds something already,
    [rename_file] returns false and leaves the world as it is, and a bulk
    rename counts the file as not renamed and goes on. *)
Theorem rename_file_never_overwrites (path new_path : Path) (prefix : str)
    (format : option str) (new_name : str) (w : world)
    (Hname : formatted_filename path prefix format = Ok new_name)
    (Hpath : with_name path new_name = Ok new_path)
    (Hthere : new_path = path \/ exists_ (files w) new_path = true) :
  rename_file path prefix format w = (Ok false, w) /\
  forall rest renamed unrenamed,
    rename_loop (path :: rest) prefix format renamed unrenamed w
    = rename_loop rest prefix format renamed (unrenamed + 1) w.
Proof.
  assert (H : rename_file path prefix format w = (Ok false, w)).
  { unfold rename_file. destruct (is_formatted path prefix); [reflexivity|].
    unfold bind, lift, gets. rewrite Hname.
    destruct (str_eq_dec new_name []); [reflexivity|]. rewrite Hpath.
    destruct Hthere as [->|Hex].
    - destruct (Path_eq_dec path path); [reflexivity|congruence].
    - rewrite Hex. now rewrite andb_false_r. }
  split; [exact H|]. intros rest a b.
  cbn [rename_loop]. unfold bind. now rewrite H.
Qed.

Lemma rename_file_never_overwrites_witness :
  rename_file (in_o (lit "img7.png")) (lit "photo") None
    (mkWorld (files world_taken ++ [(in_o (lit "img7.png"), File (lit "B"))]) [])
  = (Ok false,
     mkWorld (files world_taken ++ [(in_o (lit "img7.png"), File (lit "B"))]) [])
  /\
  forall rest renamed unrenamed,
    rename_loop (in_o (lit "img7.png") :: rest) (lit "photo") None
      renamed unrenamed
      (mkWorld (files world_taken ++ [(in_o (lit "img7.png"), File (lit "B"))])
               [])
    = rename_loop rest (lit "photo") None renamed (unrenamed + 1)
        (mkWorld (files world_taken
                  ++ [(in_o (lit "img7.png"), File (lit "B"))]) []).
Proof.
  apply (rename_file_never_overwrites
           (in_o (lit "img7.png")) (in_o (lit "photo07.png")) (lit "photo")
           None (lit "photo07.png")).
  - reflexivity.
  - reflexivity.
  - right. reflexivity.
Defined.

(** X16: The target name of a file that has an extension has the same
    extension, and its stem is the prefix followed by the index on two
    digits at least, whatever dots the prefix holds. *)
Theorem target_keeps_extension (path q : Path) (prefix : str)
    (format : option str) (target : str)
    (Hname : formatted_filename path prefix format = Ok target)
    (Hne : target <> [])
    (Hext : suffix path <> [])
    (Hq : name q = target) :
  exists n,
    find_index (name path) format = Ok n /\ (0 <= n)%Z /\
    stem q = prefix ++ format_02d n /\
    suffix q = suffix path.
Proof.
  unfold formatted_filename in Hname.
  destruct (find_index (name path) format) as [n| |] eqn:Hidx;
    try discriminate.
  simpl in Hname. destruct (n =? -1)%Z eqn:Hs; simpl in Hname;
    [inversion Hname; congruence|].
  apply Z.eqb_neq in Hs. inversion Hname as [Ht]. clear Hname.
  pose proof (find_index_range _ _ _ Hidx) as Hrange.
  assert (Hpos : (0 <= n)%Z) by lia.
  destruct (format_02d_decimal n Hpos) as (Hdne & Hdec & _).
  assert (Hstem : stem q = prefix ++ format_02d n).
  { apply (stem_of_target q path); auto. now rewrite Hq, <- Ht. }
  exists n. repeat split; auto.
  pose proof (name_stem_suffix q) as Hsplit.
  rewrite Hq, <- Ht, Hstem, app_assoc in Hsplit.
  now apply app_inv_head in Hsplit.
Qed.

Lemma target_keeps_extension_witness :
  exists n,
    find_index (name (in_d (lit "a.b.img7.tar.gz"))) None = Ok n /\ (0 <= n)%Z /\
    stem (in_d (lit "v.1-07.gz")) = lit "v.1-" ++ format_02d n /\
    suffix (in_d (lit "v.1-07.gz")) = suffix (in_d (lit "a.b.img7.tar.gz")).
Proof.
  apply (target_keeps_extension
           (in_d (lit "a.b.img7.tar.gz")) (in_d (lit "v.1-07.gz"))
           (lit "v.1-") None (lit "v.1-07.gz")).
  - reflexivity.
  - discriminate.
  - discriminate.
  - reflexivity.
Defined.
